(** * Agnideva Rover control centre: serial protocol, mode state and failsafe

    A shallow embedding of [src/app.py]: the [SerialThread] transport,
    the [VoiceThread] command loop and the handlers of
    [AgnidevaControlCentre] are state-passing functions over records; the
    calls the handlers make on the serial port and on the widgets are
    recorded, in program order, in a trace.

    Modelling conventions.
    - A Python [str] is a [string]; its characters are the code points
      below 256.
    - Wall-clock readings ([time.time()]) are rational numbers of seconds.
    - The soil percentage is computed with IEEE-754 binary64 floats, as the
      interpreter does.
    - Timestamps ([[HH:MM:SS]] prefixes of log lines) and the pictographs
      of the widget texts are left out of the recorded texts.
    - A modal error dialog returns before any other event is handled, and
      listing the ports does not fail. *)

From Stdlib Require Import ZArith QArith Floats Ascii String Lqa.
From stdpp Require Import gmap strings list pretty.

(** ** Python string operations used by the handlers *)

Module Py.

(** The line feed of the [\n] escapes in the messages. *)
Definition NL : string := String (ascii_of_nat 10) EmptyString.

(** [s.startswith(p)] *)
Fixpoint startswith (p s : string) : bool :=
  match p with
  | EmptyString => true
  | String a p' =>
      match s with
      | EmptyString => false
      | String b s' => Ascii.eqb a b && startswith p' s'
      end
  end.

(** [sub in s] for two strings: [sub] occurs somewhere in [s]. *)
Fixpoint contains (sub s : string) : bool :=
  startswith sub s ||
  match s with
  | EmptyString => false
  | String _ s' => contains sub s'
  end.

(** [s.split(sep)] for a one-character separator: the list of fields,
    never empty. *)
Fixpoint split (sep : ascii) (s : string) : list string :=
  match s with
  | EmptyString => [EmptyString]
  | String c s' =>
      if Ascii.eqb c sep then EmptyString :: split sep s'
      else match split sep s' with
           | f :: fs => String c f :: fs
           | [] => [String c EmptyString]
           end
  end.

Definition colon : ascii := ":"%char.

(** [str.isspace] on one character (code points below 256). *)
Definition isspace (c : ascii) : bool :=
  let n := nat_of_ascii c in
  ((9 <=? n) && (n <=? 13) || (28 <=? n) && (n <=? 32)
   || (n =? 133) || (n =? 160))%nat.

Fixpoint lstrip_by (sp : ascii -> bool) (s : string) : string :=
  match s with
  | EmptyString => EmptyString
  | String c s' => if sp c then lstrip_by sp s' else s
  end.

Definition strip_by (sp : ascii -> bool) (s : string) : string :=
  String.rev (lstrip_by sp (String.rev (lstrip_by sp s))).

(** [s.strip()] *)
Definition strip (s : string) : string := strip_by isspace s.

(** [c.lower()] on one character: A-Z and the Latin-1 capitals. *)
Definition lower_char (c : ascii) : ascii :=
  let n := nat_of_ascii c in
  if ((65 <=? n) && (n <=? 90)
      || (192 <=? n) && (n <=? 222) && negb (n =? 215))%nat
  then ascii_of_nat (n + 32) else c.

(** [s.lower()] *)
Fixpoint lower (s : string) : string :=
  match s with
  | EmptyString => EmptyString
  | String c s' => String (lower_char c) (lower s')
  end.

(** The white space [int(s)] skips around the number: the ASCII white
    space, and the Latin-1 spaces the interpreter first turns into
    blanks. *)
Definition int_space (c : ascii) : bool :=
  let n := nat_of_ascii c in
  ((9 <=? n) && (n <=? 13) || (n =? 32) || (n =? 133) || (n =? 160))%nat.

Definition digit (c : ascii) : option Z :=
  let n := nat_of_ascii c in
  if ((48 <=? n) && (n <=? 57))%nat then Some (Z.of_nat n - 48)%Z else None.

(** Digits of a decimal literal after its first digit: a digit, or one
    underscore followed by a digit.  [acc] is the value so far. *)
Fixpoint int_digits (acc : Z) (s : string) : option Z :=
  match s with
  | EmptyString => Some acc
  | String c s' =>
      match digit c with
      | Some d => int_digits (10 * acc + d)%Z s'
      | None =>
          if Ascii.eqb c "_"%char then
            match s' with
            | String c' s'' =>
                match digit c' with
                | Some d => int_digits (10 * acc + d)%Z s''
                | None => None
                end
            | EmptyString => None
            end
          else None
      end
  end.

Definition int_unsigned (s : string) : option Z :=
  match s with
  | String c s' =>
      match digit c with
      | Some d => int_digits d s'
      | None => None
      end
  | EmptyString => None
  end.

(** [int(s)] in base ten; [None] stands for [ValueError]. *)
Definition int (s : string) : option Z :=
  match strip_by int_space s with
  | String "-"%char s' => Z.opp <$> int_unsigned s'
  | String "+"%char s' => int_unsigned s'
  | s' => int_unsigned s'
  end.

(** [int(x)] on a float: truncation towards zero; [None] stands for the
    [ValueError]/[OverflowError] on a NaN or an infinity. *)
Definition int_of_float (x : float) : option Z :=
  match Prim2SF x with
  | S754_zero _ => Some 0%Z
  | S754_finite sign m e =>
      let a := if (0 <=? e)%Z then Z.shiftl (Zpos m) e
               else Z.shiftr (Zpos m) (- e) in
      Some (if sign then (- a)%Z else a)
  | S754_infinity _ => None
  | S754_nan => None
  end.

(** The float of an integer of magnitude below 2^53 (exact). *)
Definition float_of_int (z : Z) : float :=
  match z with
  | Z0 => PrimFloat.of_uint63 (Uint63.of_Z 0)
  | Zpos _ => PrimFloat.of_uint63 (Uint63.of_Z z)
  | Zneg p => PrimFloat.opp (PrimFloat.of_uint63 (Uint63.of_Z (Zpos p)))
  end.

End Py.

(** ** SerialThread *)

Module SerialThread.

(** The [serial.Serial] handle: whether the port is open, and, when the
    device is faulty, the text of the exception its [write] raises. *)
Record Serial := {
  is_open : bool;
  write_raises : option string
}.

Record t := {
  ser : option Serial;
  port : string;
  running : bool
}.

(** What a call does besides returning: bytes handed to [ser.write], or
    an emission of the [error_occurred] signal. *)
Inductive effect :=
| Wrote (bytes : string)
| ErrorOccurred (message : string).

(** [__init__] *)
Definition init (p : string) : t :=
  {| ser := None; port := p; running := true |}.

(** The thread once [run] has opened the port. *)
Definition opened (p : string) : t :=
  {| ser := Some {| is_open := true; write_raises := None |};
     port := p; running := true |}.

Definition write_error_text (e : string) : string :=
  "Serial write error: " +:+ e +:+ Py.NL +:+
  "Please check Arduino connection and restart the application.".

(** [send]: the returned boolean and the effects of the call. *)
Definition send (command : string) (self : t) : bool * list effect :=
  match ser self with
  | Some s =>
      if is_open s then
        match write_raises s with
        | None => (true, [Wrote command])
        | Some e => (false, [ErrorOccurred (write_error_text e)])
        end
      else (false, [])
  | None => (false, [])
  end.

(** The port is open and its [write] goes through. *)
Definition ready (self : t) : bool :=
  match ser self with
  | Some s =>
      is_open s && match write_raises s with None => true | Some _ => false end
  | None => false
  end.

(** There is no handle yet, or the port is not open. *)
Definition closed (self : t) : bool :=
  match ser self with
  | Some s => negb (is_open s)
  | None => true
  end.

(** The signals [run] emits. *)
Inductive signal :=
| DataReceived (data : string)
| ErrorSignal (message : string).

(** What [serial.Serial(...)] does at the start of [run]. *)
Inductive opening :=
| Opens
| OpenRaises (e : string).

Definition open_error_text (p e : string) : string :=
  "Failed to open serial port " +:+ p +:+ ": " +:+ e +:+ Py.NL +:+
  "Please verify the port and restart the application.".

Definition read_error_text (e : string) : string :=
  "Serial read error: " +:+ e +:+ Py.NL +:+
  "Please check Arduino connection and restart the application.".

(** The start of [run]: the port is opened and the connect notice is
    emitted, or the failure is reported. *)
Definition run_open (o : opening) (self : t) : t * list signal :=
  match o with
  | Opens =>
      ({| ser := Some {| is_open := true; write_raises := None |};
          port := port self; running := running self |},
       [DataReceived "Connected to Arduino"])
  | OpenRaises e => (self, [ErrorSignal (open_error_text (port self) e)])
  end.

(** What one pass of the loop of [run] finds on the port: nothing
    waiting, a line (the text [readline().decode('utf-8')] returns), an
    exception of [readline] or [decode], or an exception of [in_waiting]
    (raised outside the inner [try]). *)
Inductive reading :=
| NothingWaiting
| Line (text : string)
| ReadRaises (e : string)
| WaitingRaises (e : string).

(** One pass of the [while self.running] loop of [run]: whether the loop
    goes on, and the signals emitted. *)
Definition read_pass (r : reading) (self : t) : bool * list signal :=
  if running self then
    match r with
    | NothingWaiting => (true, [])
    | Line text =>
        let data := Py.strip text in
        (true, if String.eqb data EmptyString then [] else [DataReceived data])
    | ReadRaises e => (true, [ErrorSignal (read_error_text e)])
    | WaitingRaises e => (false, [ErrorSignal (open_error_text (port self) e)])
    end
  else (false, []).

(** [close]; [closes] tells whether [ser.close()] returns (an exception
    of it is swallowed and leaves the port as it was). *)
Definition close (closes : bool) (self : t) : t :=
  {| ser := match ser self with
            | Some s =>
                if is_open s
                then Some {| is_open := negb closes;
                             write_raises := write_raises s |}
                else Some s
            | None => None
            end;
     port := port self;
     running := false |}.

End SerialThread.

(** ** VoiceThread *)

Module VoiceThread.

Record t := { isRunning : bool }.

(** [command_map], in insertion order. *)
Definition command_map : list (string * string) :=
  [("forward", "F"); ("backward", "B"); ("back", "B"); ("left", "L");
   ("right", "R"); ("spray", "P"); ("stop", "S")].

(** The loop over [command_map.items()]: the value of the first key that
    occurs in [text]; [None] when no key does. *)
Fixpoint first_match (m : list (string * string)) (text : string)
  : option string :=
  match m with
  | [] => None
  | (key, value) :: m' =>
      if Py.contains key text then Some value else first_match m' text
  end.

Definition command_of (text : string) : option string :=
  first_match command_map text.

(** What one pass of the loop in [run] gets from the recogniser: the
    lower-cased transcript, or one of the three exceptions. *)
Inductive heard :=
| Transcript (text : string)
| WaitTimeoutError
| UnknownValueError
| RequestError (e : string).

End VoiceThread.

(** ** AgnidevaControlCentre *)

Module AgnidevaControlCentre.

(** The calls a handler makes on the serial port and on the widgets. *)
Inductive call :=
| SerWrite (bytes : string)
| SetText (widget text : string)
| Append (widget text : string)
| SetValue (widget : string) (v : Z)
| SetToolTip (widget text : string)
| SetEnabled (widget : string) (on : bool)
| ShowWidget (widget : string)
| HideWidget (widget : string)
| Critical (message : string)
| RefreshPorts.

(** The window object.  [queued] holds the [error_occurred] emissions of
    other threads that wait in the GUI event queue; [trace] is the
    record of the calls made so far, oldest first. *)
Record t := {
  serial_thread : option SerialThread.t;
  voice_thread : option VoiceThread.t;
  listener : bool;
  current_mode : string;
  last_cmd_time : Q;
  active_keys : gset string;
  queued : list string;
  trace : list call
}.

Definition set_serial_thread (v : option SerialThread.t) (s : t) : t :=
  {| serial_thread := v; voice_thread := voice_thread s;
     listener := listener s; current_mode := current_mode s;
     last_cmd_time := last_cmd_time s; active_keys := active_keys s;
     queued := queued s; trace := trace s |}.

Definition set_voice_thread (v : option VoiceThread.t) (s : t) : t :=
  {| serial_thread := serial_thread s; voice_thread := v;
     listener := listener s; current_mode := current_mode s;
     last_cmd_time := last_cmd_time s; active_keys := active_keys s;
     queued := queued s; trace := trace s |}.

Definition set_listener (v : bool) (s : t) : t :=
  {| serial_thread := serial_thread s; voice_thread := voice_thread s;
     listener := v; current_mode := current_mode s;
     last_cmd_time := last_cmd_time s; active_keys := active_keys s;
     queued := queued s; trace := trace s |}.

Definition set_current_mode (v : string) (s : t) : t :=
  {| serial_thread := serial_thread s; voice_thread := voice_thread s;
     listener := listener s; current_mode := v;
     last_cmd_time := last_cmd_time s; active_keys := active_keys s;
     queued := queued s; trace := trace s |}.

Definition set_last_cmd_time (v : Q) (s : t) : t :=
  {| serial_thread := serial_thread s; voice_thread := voice_thread s;
     listener := listener s; current_mode := current_mode s;
     last_cmd_time := v; active_keys := active_keys s;
     queued := queued s; trace := trace s |}.

Definition set_active_keys (v : gset string) (s : t) : t :=
  {| serial_thread := serial_thread s; voice_thread := voice_thread s;
     listener := listener s; current_mode := current_mode s;
     last_cmd_time := last_cmd_time s; active_keys := v;
     queued := queued s; trace := trace s |}.

Definition set_queued (v : list string) (s : t) : t :=
  {| serial_thread := serial_thread s; voice_thread := voice_thread s;
     listener := listener s; current_mode := current_mode s;
     last_cmd_time := last_cmd_time s; active_keys := active_keys s;
     queued := v; trace := trace s |}.

(** Record calls, in program order. *)
Definition calls (cs : list call) (s : t) : t :=
  {| serial_thread := serial_thread s; voice_thread := voice_thread s;
     listener := listener s; current_mode := current_mode s;
     last_cmd_time := last_cmd_time s; active_keys := active_keys s;
     queued := queued s; trace := trace s ++ cs |}.

Definition is_write (c : call) : option string :=
  match c with SerWrite b => Some b | _ => None end.

(** The commands written to the serial port so far, oldest first. *)
Definition written (s : t) : list string := omap is_write (trace s).

(** [__init__] (the widgets are built by [init_ui]). *)
Definition init : t :=
  {| serial_thread := None; voice_thread := None; listener := false;
     current_mode := "N"; last_cmd_time := 0%Q; active_keys := ∅;
     queued := []; trace := [] |}.

Definition restart : string :=
  Py.NL +:+ "Please restart the application.".

Definition none_has_no_send : string :=
  "'NoneType' object has no attribute 'send'".

(** [disconnect_serial] *)
Definition disconnect_serial (s : t) : t :=
  let s := match serial_thread s with
           | Some _ => set_serial_thread None s
           | None => s
           end in
  let s := match voice_thread s with
           | Some _ =>
               calls [SetText "voice_btn" "Start Voice Control";
                      SetText "voice_status_label" "Status: Not active"]
                     (set_voice_thread None s)
           | None => s
           end in
  let s := if listener s then set_listener false s else s in
  calls [SetText "status_label" "Status: Disconnected";
         Append "log_text" "Disconnected";
         SetEnabled "connect_btn" true;
         SetEnabled "disconnect_btn" false;
         HideWidget "dashboard";
         SetText "mode_label" "None";
         RefreshPorts] s.

(** [show_error] *)
Definition show_error (message : string) (s : t) : t :=
  disconnect_serial
    (calls [Append "log_text" ("ERROR: " +:+ message); Critical message] s).

(** An effect of [SerialThread.send] when the caller runs in the GUI
    thread: the [error_occurred] signal calls its slot [show_error] at
    once. *)
Definition deliver_direct (s : t) (e : SerialThread.effect) : t :=
  match e with
  | SerialThread.Wrote b => calls [SerWrite b] s
  | SerialThread.ErrorOccurred m => show_error m s
  end.

(** The same when the caller is the key listener or the voice thread:
    the slot call is posted to the GUI event queue. *)
Definition deliver_queued (s : t) (e : SerialThread.effect) : t :=
  match e with
  | SerialThread.Wrote b => calls [SerWrite b] s
  | SerialThread.ErrorOccurred m => set_queued (queued s ++ [m]) s
  end.

(** [th.send(command)] called from the GUI thread. *)
Definition gui_send (th : SerialThread.t) (command : string) (s : t)
  : bool * t :=
  let r := SerialThread.send command th in
  (fst r, foldl deliver_direct s (snd r)).

(** [th.send(command)] called from another thread. *)
Definition worker_send (th : SerialThread.t) (command : string) (s : t)
  : bool * t :=
  let r := SerialThread.send command th in
  (fst r, foldl deliver_queued s (snd r)).

(** The GUI thread runs the oldest queued [show_error] call. *)
Definition run_queued (s : t) : t :=
  match queued s with
  | m :: q => show_error m (set_queued q s)
  | [] => s
  end.

(** [int((1023 - soil) / 1023 * 100)], for [soil] a C int. *)
Definition moisture_percent (soil : Z) : option Z :=
  Py.int_of_float
    (PrimFloat.mul
       (PrimFloat.div (Py.float_of_int (1023 - soil)) (Py.float_of_int 1023))
       (Py.float_of_int 100)).

(** Whether [soil] converts to the C int that [QProgressBar.setValue]
    takes; the binding raises [OverflowError] otherwise. *)
Definition fits_c_int (soil : Z) : bool :=
  ((-2147483648 <=? soil) && (soil <=? 2147483647))%Z.

Definition invalid_soil (s : t) : t :=
  calls [Append "log_text" "Invalid soil data"] s.

(** [handle_serial_data] *)
Definition handle_serial_data (data : string) (s : t) : t :=
  if Py.contains "Error" data then show_error data s
  else if Py.contains "Mode:" data then
    match Py.split Py.colon data !! 1%nat with
    | Some f =>
        let mode := Py.strip f in
        calls [SetText "mode_label" mode;
               SetText "auto_status"
                 ("Auto Mode: " +:+
                  (if String.eqb mode "A" then "Active" else "Inactive"));
               Append "log_text" ("Mode set to " +:+ mode)]
              (set_current_mode mode s)
    | None =>
        show_error ("Serial data processing failed: " +:+
                    "list index out of range" +:+ restart) s
    end
  else if Py.startswith "Soil:" data then
    match Py.split Py.colon data !! 1%nat ≫= Py.int with
    | Some soil =>
        if fits_c_int soil then
          let s := calls [SetValue "soil_bar" soil] s in
          match moisture_percent soil with
          | Some pct =>
              calls [SetToolTip "soil_bar" (pretty pct +:+ "% moisture");
                     Append "log_text"
                       ("Soil Moisture: " +:+ pretty soil +:+
                        " (" +:+ pretty pct +:+ "%)")] s
          | None => invalid_soil s
          end
        else invalid_soil s
    | None => invalid_soil s
    end
  else if Py.startswith "Dist:" data then
    match Py.split Py.colon data !! 1%nat with
    | Some f => calls [SetText "dist_label" (Py.strip f +:+ " cm")] s
    | None => s
    end
  else if String.eqb data "Connected to Arduino" then
    calls [SetText "status_label" "Status: Connected";
           Append "log_text" data] s
  else calls [Append "log_text" ("Received: " +:+ data)] s.

(** The body of [switch_mode]; [toggle] is what its call of
    [self.toggle_voice()] does. *)
Definition switch_mode_with (toggle : t -> t) (mode : string) (s : t) : t :=
  match serial_thread s with
  | None => s
  | Some th =>
      let r := gui_send th mode s in
      if fst r then
        let s := calls [SetText "mode_label" mode]
                       (set_current_mode mode (snd r)) in
        if String.eqb mode "V" && negb (bool_decide (is_Some (voice_thread s)))
        then calls [Append "voice_status" "Voice mode activated"] s
        else if String.eqb mode "A" then
          calls [SetText "auto_status" "Scanning for flames...";
                 Append "normal_status" "Auto Mode activated"] s
        else if String.eqb mode "N" then
          let s := calls [Append "normal_status" "Normal Mode activated"] s in
          match voice_thread s with
          | Some _ => toggle s
          | None => s
          end
        else s
      else snd r
  end.

(** The [else] branch of [toggle_voice]: start voice control. *)
Definition start_voice (s : t) : t :=
  match serial_thread s with
  | None =>
      show_error ("Voice mode toggle failed: " +:+ none_has_no_send
                  +:+ restart) s
  | Some th =>
      let r := gui_send th "V" s in
      if fst r then
        calls [SetText "voice_btn" "Stop Voice Control";
               Append "voice_status" "Voice control started"]
              (set_voice_thread (Some {| VoiceThread.isRunning := true |})
                                (snd r))
      else snd r
  end.

(** The body of [toggle_voice]; [switch] is what its call of
    [self.switch_mode('N')] does. *)
Definition toggle_voice_with (switch : string -> t -> t) (s : t) : t :=
  match voice_thread s with
  | Some v =>
      if VoiceThread.isRunning v then
        let s := calls [SetText "voice_btn" "Start Voice Control";
                        SetText "voice_status_label" "Status: Not active"]
                       (set_voice_thread None s) in
        calls [Append "voice_status" "Voice control stopped"]
              (switch "N" s)
      else start_voice s
  | None => start_voice s
  end.

(** [toggle_voice].  Its call of [switch_mode('N')] runs with
    [voice_thread] just set to [None], so that call does not come back
    to [toggle_voice]. *)
Definition toggle_voice (s : t) : t :=
  toggle_voice_with (switch_mode_with (fun s' => s')) s.

(** [switch_mode] *)
Definition switch_mode (mode : string) (s : t) : t :=
  switch_mode_with toggle_voice mode s.

(** The keys the listener delivers: members of [keyboard.Key], or a
    [KeyCode] whose [char] may be [None]. *)
Inductive Key :=
| Key_up | Key_down | Key_left | Key_right | Key_space
| Key_other (name : string)
| KeyCode (char : option string).

(** The [if]/[elif] chain of [on_press] and [on_release]: the value of
    [cmd]; [None] when [key.char.lower()] raises. *)
Definition key_cmd (key : Key) : option string :=
  match key with
  | Key_up => Some "F"
  | Key_down => Some "B"
  | Key_left => Some "L"
  | Key_right => Some "R"
  | Key_space => Some "P"
  | Key_other _ => Some EmptyString
  | KeyCode None => None
  | KeyCode (Some c) =>
      let l := Py.lower c in
      if String.eqb l "w" then Some "F"
      else if String.eqb l "s" then Some "B"
      else if String.eqb l "a" then Some "L"
      else if String.eqb l "d" then Some "R"
      else Some EmptyString
  end.

Definition priority_cmds : list string := ["F"; "B"; "L"; "R"; "P"].

(** The [for] loop of [send_key_command] with its [break]. *)
Fixpoint first_held (ps : list string) (keys : gset string) : option string :=
  match ps with
  | [] => None
  | p_cmd :: ps' =>
      if bool_decide (p_cmd ∈ keys) then Some p_cmd else first_held ps' keys
  end.

(** The value of [cmd] that [send_key_command] sends. *)
Definition effective_command (keys : gset string) : string :=
  default "S" (first_held priority_cmds keys).

(** [send_key_command], called by the key listener's thread. *)
Definition send_key_command (s : t) : t :=
  let cmd := effective_command (active_keys s) in
  match serial_thread s with
  | Some th =>
      let r := worker_send th cmd s in
      if fst r then calls [Append "normal_status" ("WASD: " +:+ cmd)] (snd r)
      else snd r
  | None => s
  end.

(** [on_press] *)
Definition on_press (key : Key) (s : t) : t :=
  if negb (String.eqb (current_mode s) "N")
     || negb (bool_decide (is_Some (serial_thread s)))
  then s
  else match key_cmd key with
       | Some cmd =>
           if String.eqb cmd EmptyString then s
           else send_key_command
                  (set_active_keys ({[cmd]} ∪ active_keys s) s)
       | None => s
       end.

(** [on_release] *)
Definition on_release (key : Key) (s : t) : t :=
  if negb (String.eqb (current_mode s) "N")
     || negb (bool_decide (is_Some (serial_thread s)))
  then s
  else match key_cmd key with
       | Some cmd =>
           if bool_decide (cmd ∈ active_keys s)
           then send_key_command
                  (set_active_keys (active_keys s ∖ {[cmd]}) s)
           else s
       | None => s
       end.

(** [time.time() - self.last_cmd_time > 5] *)
Definition stale (now last : Q) : bool :=
  negb (Qle_bool (now - last) 5).

(** [self.current_mode in ['A', 'N', 'V']] *)
Definition polls (mode : string) : bool :=
  String.eqb mode "A" || String.eqb mode "N" || String.eqb mode "V".

(** [update_status], the slot of the one-second timer.  [now] is the
    clock reading of the comparison, [now'] the later one stored in
    [last_cmd_time]. *)
Definition update_status (now now' : Q) (s : t) : t :=
  match serial_thread s with
  | None => calls [SetText "dist_label" "-- cm"] s
  | Some th =>
      let s := if polls (current_mode s) then snd (gui_send th "D" s)
               else s in
      if stale now (last_cmd_time s) then
        match serial_thread s with
        | Some th' => set_last_cmd_time now' (snd (gui_send th' "S" s))
        | None =>
            show_error ("Status update failed: " +:+ none_has_no_send
                        +:+ restart) s
        end
      else s
  end.

Definition listening : call :=
  SetText "voice_status_label" "Status: Listening...".

Definition processing : call :=
  SetText "voice_status_label" "Status: Processing...".

(** One pass of the loop of [VoiceThread.run], for the thread that
    [toggle_voice] started on [self.serial_thread]. *)
Definition voice_pass (h : VoiceThread.heard) (s : t) : t :=
  match voice_thread s with
  | Some v =>
      if VoiceThread.isRunning v then
        match h with
        | VoiceThread.Transcript text =>
            let s := calls [listening; processing] s in
            match VoiceThread.command_of text with
            | Some cmd =>
                match serial_thread s with
                | Some th =>
                    let r := worker_send th cmd s in
                    if fst r then
                      calls [SetText "voice_status_label"
                               ("Status: Executing: " +:+ text +:+
                                " (" +:+ cmd +:+ ")");
                             Append "voice_status"
                               ("Voice: " +:+ text +:+
                                " (" +:+ cmd +:+ ")")] (snd r)
                    else snd r
                | None => s
                end
            | None =>
                calls [listening;
                       Append "voice_status" ("Unrecognized: " +:+ text)] s
            end
        | VoiceThread.WaitTimeoutError => calls [listening; listening] s
        | VoiceThread.UnknownValueError =>
            calls [listening; processing; listening;
                   Append "voice_status" "Could not understand audio"] s
        | VoiceThread.RequestError e =>
            let s := calls [listening; processing] s in
            set_voice_thread (Some {| VoiceThread.isRunning := false |})
              (set_queued
                 (queued s ++
                  ["Voice recognition error: " +:+ e +:+ Py.NL +:+
                   "Please check internet connection and restart."]) s)
        end
      else s
  | None => s
  end.

(** No serial thread, or one without an open port. *)
Definition no_open_port (s : t) : bool :=
  match serial_thread s with
  | Some th => SerialThread.closed th
  | None => true
  end.

(** The percentage as the specification words it: the integer nearest
    to [(1023 - soil) / 1023 * 100]. *)
Definition rounded_percent (soil : Z) : Z :=
  ((2 * (100 * (1023 - soil)) + 1023) / (2 * 1023))%Z.

(** The truncation towards zero of the exact quotient
    [100 * (1023 - soil) / 1023]. *)
Definition truncated_percent (soil : Z) : Z :=
  Z.quot (100 * (1023 - soil)) 1023.

Definition percent_agrees (soil : Z) : bool :=
  match moisture_percent soil with
  | Some pct => Z.eqb pct (truncated_percent soil)
  | None => false
  end.

(** [percent_agrees] on the [2^k] readings from [lo] on. *)
Fixpoint agrees_from (k : nat) (lo : Z) : bool :=
  match k with
  | O => percent_agrees lo
  | S k' => agrees_from k' lo && agrees_from k' (lo + 2 ^ Z.of_nat k')%Z
  end.

(** The calls of the [Mode:] branch of [handle_serial_data]. *)
Definition mode_calls (mode : string) : list call :=
  [SetText "mode_label" mode;
   SetText "auto_status"
     ("Auto Mode: " +:+
      (if String.eqb mode "A" then "Active" else "Inactive"));
   Append "log_text" ("Mode set to " +:+ mode)].

(** The part of [connect_serial] that starts the serial thread, with the
    thread's [run] having opened the port. *)
Definition serial_started (p : string) (s : t) : t :=
  set_serial_thread (Some (SerialThread.opened p))
    (calls [SetText "status_label" "Status: Connecting...";
            Append "log_text" ("Connecting to " +:+ p)] s).

(** [check_connection_status] when its test holds (the thread runs and
    the status label reads Connected); [start_key_listener] installs the
    listener. *)
Definition connection_confirmed (p : string) (s : t) : t :=
  set_listener true
    (switch_mode "N"
       (calls [Append "log_text" ("Connected to " +:+ p);
               SetEnabled "connect_btn" false;
               SetEnabled "disconnect_btn" true;
               ShowWidget "dashboard"] s)).

(** A session after a successful connect on port [p]: the thread has
    opened the port, its [Connected to Arduino] notice has been handled,
    and the connection check has switched to Normal mode (writing N). *)
Definition connected (p : string) : t :=
  connection_confirmed p
    (handle_serial_data "Connected to Arduino" (serial_started p init)).

(** A port as [serial.tools.list_ports.comports()] lists it. *)
Record PortInfo := { device : string; description : string }.

(** The test of the loop of [refresh_ports]; [system] is
    [platform.system().lower()]. *)
Definition port_matches (system : string) (p : PortInfo) : bool :=
  let dev := Py.lower (device p) in
  Py.contains "arduino" (Py.lower (description p))
  || (String.eqb system "windows" && Py.contains "com" dev)
  || ((String.eqb system "linux" || String.eqb system "darwin")
      && (Py.contains "tty" dev || Py.contains "cu" dev)).

Definition no_ports_found : string := "No ports found".

(** The items [refresh_ports] adds to the port box: [found] is what
    [comports()] returns in the loop, [again] what it returns in the
    fallback. *)
Definition port_items (platform_system : string) (found again : list PortInfo)
  : list string :=
  let system := Py.lower platform_system in
  let ports := map device (List.filter (port_matches system) found) in
  let ports := match ports with [] => map device again | _ => ports end in
  match ports with [] => [no_ports_found] | _ => ports end.

Definition already_connected : string :=
  "Already connected to a port!" +:+ Py.NL +:+
  "Please disconnect first or restart the application.".

Definition no_valid_port : string :=
  "No valid port selected." +:+ Py.NL +:+
  "Please select a port and restart the application.".

Definition connection_failed : string :=
  "Connection failed." +:+ Py.NL +:+
  "Please check Arduino connection and restart the application.".

(** [connect_serial]; [alive] is what [isRunning()] returns for the
    current serial thread, [p] the text of the port box. *)
Definition connect_serial (alive : bool) (p : string) (s : t) : t :=
  if bool_decide (is_Some (serial_thread s)) && alive
  then show_error already_connected s
  else if String.eqb p EmptyString || Py.contains "No ports" p
  then show_error no_valid_port s
  else set_serial_thread (Some (SerialThread.init p))
         (calls [SetText "status_label" "Status: Connecting...";
                 Append "log_text" ("Connecting to " +:+ p)] s).

(** The slots of the serial thread's two signals. *)
Definition deliver_signal (s : t) (sig : SerialThread.signal) : t :=
  match sig with
  | SerialThread.DataReceived data => handle_serial_data data s
  | SerialThread.ErrorSignal m => show_error m s
  end.

(** The serial thread starts its [run]; the slots of what it emits run
    next. *)
Definition serial_run_open (o : SerialThread.opening) (s : t) : t :=
  match serial_thread s with
  | Some th =>
      let r := SerialThread.run_open o th in
      foldl deliver_signal (set_serial_thread (Some (fst r)) s) (snd r)
  | None => s
  end.

(** One pass of the reader loop of the serial thread, with the slots of
    what it emits. *)
Definition serial_read (r : SerialThread.reading) (s : t) : t :=
  match serial_thread s with
  | Some th => foldl deliver_signal s (snd (SerialThread.read_pass r th))
  | None => s
  end.

(** The text of a label: that of the last [setText] on it, or the text
    [init_ui] gave it. *)
Definition label_text (widget initial : string) (cs : list call) : string :=
  foldl (fun cur c =>
           match c with
           | SetText w text => if String.eqb w widget then text else cur
           | _ => cur
           end) initial cs.

Definition status_text (s : t) : string :=
  label_text "status_label" "Status: Ready to connect" (trace s).

(** [check_connection_status]; [alive] is what [isRunning()] returns, [p]
    the text of the port box. *)
Definition check_connection_status (alive : bool) (p : string) (s : t) : t :=
  if bool_decide (is_Some (serial_thread s)) && alive
     && Py.contains "Connected" (status_text s)
  then connection_confirmed p s
  else show_error connection_failed s.

(** The device starts to fail: from now on a [write] on the port of the
    serial thread raises [e]. *)
Definition port_fault (e : string) (s : t) : t :=
  match serial_thread s with
  | Some th =>
      set_serial_thread
        (Some {| SerialThread.ser :=
                   (fun p => {| SerialThread.is_open := SerialThread.is_open p;
                                SerialThread.write_raises := Some e |})
                   <$> SerialThread.ser th;
                 SerialThread.port := SerialThread.port th;
                 SerialThread.running := SerialThread.running th |}) s
  | None => s
  end.

(** What can happen to the window: the buttons, the timer, the key
    listener, and the signals of the two threads. *)
Inductive event :=
| ConnectClicked (alive : bool) (p : string)
| ThreadOpened (o : SerialThread.opening)
| ConnectionChecked (alive : bool) (p : string)
| DisconnectClicked
| LineRead (r : SerialThread.reading)
| ErrorDelivered
| AutoClicked
| VoiceClicked
| KeyPressed (key : Key)
| KeyReleased (key : Key)
| TimerFired (now now' : Q)
| VoiceHeard (h : VoiceThread.heard)
| PortFault (e : string).

Definition step (s : t) (e : event) : t :=
  match e with
  | ConnectClicked alive p => connect_serial alive p s
  | ThreadOpened o => serial_run_open o s
  | ConnectionChecked alive p => check_connection_status alive p s
  | DisconnectClicked => disconnect_serial s
  | LineRead r => serial_read r s
  | ErrorDelivered => run_queued s
  | AutoClicked => switch_mode "A" s
  | VoiceClicked => toggle_voice s
  | KeyPressed key => on_press key s
  | KeyReleased key => on_release key s
  | TimerFired now now' => update_status now now' s
  | VoiceHeard h => voice_pass h s
  | PortFault e => port_fault e s
  end.

(** The window after a sequence of events, from [__init__]. *)
Definition after (es : list event) : t := foldl step init es.

(** The ten characters of the wire protocol. *)
Definition alphabet : list string :=
  ["F"; "B"; "L"; "R"; "P"; "S"; "D"; "N"; "V"; "A"].

(** A voice thread goes with a serial thread. *)
Definition paired (s : t) : Prop :=
  is_Some (voice_thread s) -> is_Some (serial_thread s).

(** The held keys are among the five key commands. *)
Definition keys_known (s : t) : Prop :=
  forall c : string, c ∈ active_keys s -> c ∈ priority_cmds.

(** Only protocol characters have been written. *)
Definition wire_clean (s : t) : Prop :=
  Forall (fun c => c ∈ alphabet) (written s).

Definition sound (s : t) : Prop :=
  paired s /\ keys_known s /\ wire_clean s.

(** The line [Soil:n] is taken as the reading [n], and its percentage is
    the truncated quotient, within 0 and 100. *)
Definition soil_line_ok (n : Z) : bool :=
  let data := "Soil:" +:+ pretty n in
  negb (Py.contains "Error" data) && negb (Py.contains "Mode:" data)
  && Py.startswith "Soil:" data
  && bool_decide (Py.split Py.colon data !! 1%nat ≫= Py.int = Some n)
  && fits_c_int n
  && match moisture_percent n with
     | Some pct =>
         (0 <=? pct)%Z && (pct <=? 100)%Z && (pct =? truncated_percent n)%Z
     | None => false
     end.

(** [soil_line_ok] on the [2^k] readings from [lo] on. *)
Fixpoint soil_lines_ok (k : nat) (lo : Z) : bool :=
  match k with
  | O => soil_line_ok lo
  | S k' => soil_lines_ok k' lo && soil_lines_ok k' (lo + 2 ^ Z.of_nat k')%Z
  end.

(** No call of the list is a write on the port. *)
Definition ui_only (cs : list call) : bool :=
  forallb (fun c => match is_write c with None => true | Some _ => false end) cs.

(** The events of a connect on port COM3 that goes through. *)
Definition connect_events : list event :=
  [ConnectClicked false "COM3"; ThreadOpened SerialThread.Opens;
   ConnectionChecked true "COM3"].

(** A string that is empty or starts with a character that is not white
    space. *)
Definition headed (sp : ascii -> bool) (s : string) : Prop :=
  match s with
  | EmptyString => True
  | String c _ => sp c = false
  end.

(** The port is open and its [write] raises [e]. *)
Definition faulty (e : string) (th : SerialThread.t) : Prop :=
  exists p, SerialThread.ser th = Some p /\
            SerialThread.is_open p = true /\
            SerialThread.write_raises p = Some e.

(** The calls [disconnect_serial] makes when nothing is connected. *)
Definition disconnect_calls : list call :=
  [SetText "status_label" "Status: Disconnected";
   Append "log_text" "Disconnected";
   SetEnabled "connect_btn" true;
   SetEnabled "disconnect_btn" false;
   HideWidget "dashboard";
   SetText "mode_label" "None";
   RefreshPorts].

(** The error [connect_serial] shows when it starts no thread. *)
Definition refusal (alive : bool) (s : t) : string :=
  if bool_decide (is_Some (serial_thread s)) && alive
  then already_connected else no_valid_port.

(** The text of the error a failed speech request reports. *)
Definition speech_error_text (e : string) : string :=
  "Voice recognition error: " +:+ e +:+ Py.NL +:+
  "Please check internet connection and restart.".

End AgnidevaControlCentre.

(** * Properties *)

Import AgnidevaControlCentre.

(** ** Bookkeeping lemmas on the window record *)

Lemma written_calls (cs : list call) (s : t) :
  written (calls cs s) = written s ++ omap is_write cs.
Proof. unfold written, calls; simpl. apply omap_app. Qed.

(** Open the window record and the options in it, then compute. *)
Ltac open_state s :=
  destruct s as [[?|] [[[]]|] [] ? ? ? ? ?]; simpl in *.

Lemma written_disconnect_serial (s : t) :
  written (disconnect_serial s) = written s.
Proof.
  open_state s; unfold written; simpl; rewrite !omap_app; simpl;
    rewrite ?app_nil_r; reflexivity.
Qed.

Lemma written_show_error (m : string) (s : t) :
  written (show_error m s) = written s.
Proof.
  unfold show_error. rewrite written_disconnect_serial, written_calls.
  apply app_nil_r.
Qed.

Lemma written_set_queued (q : list string) (s : t) :
  written (set_queued q s) = written s.
Proof. reflexivity. Qed.

Lemma written_set_last_cmd_time (v : Q) (s : t) :
  written (set_last_cmd_time v s) = written s.
Proof. reflexivity. Qed.

Lemma written_set_voice_thread (v : option VoiceThread.t) (s : t) :
  written (set_voice_thread v s) = written s.
Proof. reflexivity. Qed.

Lemma written_set_current_mode (v : string) (s : t) :
  written (set_current_mode v s) = written s.
Proof. reflexivity. Qed.

(** Bring [written] of a chain of updates to [written s ++ ...]. *)
Ltac written_norm :=
  repeat (rewrite written_set_last_cmd_time
          || rewrite written_set_voice_thread
          || rewrite written_set_current_mode
          || rewrite written_set_queued
          || rewrite written_calls);
  cbn [omap is_write list_omap app]; rewrite <- ?app_assoc, ?app_nil_r;
  cbn [app].

(** What [SerialThread.send] returns, by the state of the port. *)
Lemma send_ready (command : string) (th : SerialThread.t) :
  SerialThread.ready th = true ->
  SerialThread.send command th = (true, [SerialThread.Wrote command]).
Proof.
  unfold SerialThread.ready, SerialThread.send.
  destruct (SerialThread.ser th) as [[[] [e|]]|]; simpl; congruence.
Qed.

Lemma send_closed (command : string) (th : SerialThread.t) :
  SerialThread.closed th = true ->
  SerialThread.send command th = (false, []).
Proof.
  unfold SerialThread.closed, SerialThread.send.
  destruct (SerialThread.ser th) as [[[] ?]|]; simpl; congruence.
Qed.

Lemma send_cases (command : string) (th : SerialThread.t) :
  SerialThread.send command th = (true, [SerialThread.Wrote command]) \/
  SerialThread.send command th = (false, []) \/
  exists m, SerialThread.send command th = (false, [SerialThread.ErrorOccurred m]).
Proof.
  unfold SerialThread.send.
  destruct (SerialThread.ser th) as [[[] [e|]]|]; simpl; eauto.
Qed.

Lemma gui_send_ready (th : SerialThread.t) (command : string) (s : t) :
  SerialThread.ready th = true ->
  gui_send th command s = (true, calls [SerWrite command] s).
Proof. intros H. unfold gui_send. rewrite (send_ready _ _ H). reflexivity. Qed.

Lemma worker_send_ready (th : SerialThread.t) (command : string) (s : t) :
  SerialThread.ready th = true ->
  worker_send th command s = (true, calls [SerWrite command] s).
Proof. intros H. unfold worker_send. rewrite (send_ready _ _ H). reflexivity. Qed.

Lemma gui_send_closed (th : SerialThread.t) (command : string) (s : t) :
  SerialThread.closed th = true -> gui_send th command s = (false, s).
Proof. intros H. unfold gui_send. rewrite (send_closed _ _ H). reflexivity. Qed.

Lemma worker_send_closed (th : SerialThread.t) (command : string) (s : t) :
  SerialThread.closed th = true -> worker_send th command s = (false, s).
Proof. intros H. unfold worker_send. rewrite (send_closed _ _ H). reflexivity. Qed.

(** A send that returns [False] wrote nothing, whoever called it. *)
Lemma gui_send_false (th : SerialThread.t) (command : string) (s : t) :
  fst (gui_send th command s) = false ->
  written (snd (gui_send th command s)) = written s.
Proof.
  unfold gui_send.
  destruct (send_cases command th) as [E|[E|[m E]]]; rewrite E; simpl;
    [discriminate| reflexivity |intros _; apply written_show_error].
Qed.

Lemma worker_send_false (th : SerialThread.t) (command : string) (s : t) :
  fst (worker_send th command s) = false ->
  written (snd (worker_send th command s)) = written s.
Proof.
  unfold worker_send.
  destruct (send_cases command th) as [E|[E|[m E]]]; rewrite E; simpl;
    [discriminate| reflexivity | reflexivity].
Qed.

(** ** The transport: [SerialThread.send] *)

(** C10: [send] returns [False] and writes nothing when the thread has no
    serial handle or the port is not open; when the write raises, it emits
    [error_occurred] with the write-error text, writes nothing and returns
    [False] (no case of [send] raises); it returns [True] exactly when it
    wrote the command.  So with no open port every handler that submits a
    command leaves the bytes written to the port as they were. *)
Theorem send_drops_without_open_port (command : string) (th : SerialThread.t) :
  (SerialThread.closed th = true ->
   SerialThread.send command th = (false, [])) /\
  (forall p e,
      SerialThread.ser th = Some p ->
      SerialThread.is_open p = true ->
      SerialThread.write_raises p = Some e ->
      SerialThread.send command th =
      (false, [SerialThread.ErrorOccurred (SerialThread.write_error_text e)])) /\
  (fst (SerialThread.send command th) = true <->
   snd (SerialThread.send command th) = [SerialThread.Wrote command]) /\
  (forall s key h mode now now',
      no_open_port s = true ->
      written (on_press key s) = written s /\
      written (on_release key s) = written s /\
      written (switch_mode mode s) = written s /\
      written (update_status now now' s) = written s /\
      written (voice_pass h s) = written s).
Proof.
  split; [apply send_closed|]. split.
  { intros p e Hp Ho He. unfold SerialThread.send. rewrite Hp, Ho, He.
    reflexivity. }
  split.
  { destruct (send_cases command th) as [E|[E|[m E]]]; rewrite E; simpl;
      split; congruence. }
  intros s key h mode now now' Hs.
  unfold no_open_port in Hs.
  repeat split.
  - unfold on_press.
    destruct (negb (String.eqb (current_mode s) "N")
              || negb (bool_decide (is_Some (serial_thread s)))); [reflexivity|].
    destruct (key_cmd key) as [cmd|]; [|reflexivity].
    destruct (String.eqb cmd EmptyString); [reflexivity|].
    unfold send_key_command, worker_send; simpl.
    destruct (serial_thread s) as [t0|]; [|reflexivity].
    rewrite (send_closed _ _ Hs). reflexivity.
  - unfold on_release.
    destruct (negb (String.eqb (current_mode s) "N")
              || negb (bool_decide (is_Some (serial_thread s)))); [reflexivity|].
    destruct (key_cmd key) as [cmd|]; [|reflexivity].
    destruct (bool_decide (cmd ∈ active_keys s)); [|reflexivity].
    unfold send_key_command, worker_send; simpl.
    destruct (serial_thread s) as [t0|]; [|reflexivity].
    rewrite (send_closed _ _ Hs). reflexivity.
  - unfold switch_mode, switch_mode_with.
    destruct (serial_thread s) as [t0|]; [|reflexivity].
    rewrite (gui_send_closed _ _ _ Hs). reflexivity.
  - unfold update_status.
    destruct (serial_thread s) as [t0|] eqn:Et.
    + rewrite (gui_send_closed _ _ _ Hs); cbn [snd].
      assert (Hs' : (if polls (current_mode s) then s else s) = s)
        by (destruct (polls (current_mode s)); reflexivity).
      rewrite Hs'. destruct (stale now (last_cmd_time s)); [|reflexivity].
      rewrite Et. rewrite (gui_send_closed _ _ _ Hs). reflexivity.
    + rewrite written_calls. apply app_nil_r.
  - unfold voice_pass.
    destruct (voice_thread s) as [[[]]|]; [|reflexivity|reflexivity].
    cbn [VoiceThread.isRunning].
    destruct h as [text| | |e]; try (rewrite written_calls; apply app_nil_r).
    + destruct (VoiceThread.command_of text) as [cmd|].
      * cbn [serial_thread calls].
        destruct (serial_thread s) as [t0|].
        -- rewrite (worker_send_closed _ _ _ Hs). cbn [fst snd].
           rewrite written_calls. apply app_nil_r.
        -- rewrite written_calls. apply app_nil_r.
      * rewrite !written_calls. simpl. rewrite !app_nil_r. reflexivity.
    + unfold written; simpl. rewrite omap_app. apply app_nil_r.
Qed.

Lemma send_drops_without_open_port_witness :
  SerialThread.send "F" (SerialThread.init "COM3") = (false, []) /\
  SerialThread.send "F"
    {| SerialThread.ser :=
         Some {| SerialThread.is_open := true;
                 SerialThread.write_raises := Some "device gone" |};
       SerialThread.port := "COM3"; SerialThread.running := true |} =
  (false,
   [SerialThread.ErrorOccurred (SerialThread.write_error_text "device gone")]) /\
  written (on_press Key_up init) = written init.
Proof.
  split; [|split].
  - apply (send_drops_without_open_port "F" (SerialThread.init "COM3")).
    reflexivity.
  - apply (send_drops_without_open_port "F"
             {| SerialThread.ser :=
                  Some {| SerialThread.is_open := true;
                          SerialThread.write_raises := Some "device gone" |};
                SerialThread.port := "COM3"; SerialThread.running := true |})
      with (p := {| SerialThread.is_open := true;
                    SerialThread.write_raises := Some "device gone" |});
      reflexivity.
  - apply (send_drops_without_open_port "F" (SerialThread.init "COM3"))
      with (h := VoiceThread.WaitTimeoutError) (mode := "N")
           (now := 0%Q) (now' := 0%Q).
    reflexivity.
Defined.

(** ** The key listener and the priority of held keys *)

(** C3: a key press or release delivered while [current_mode] is not
    ['N'], or while there is no serial thread (the disconnected state),
    changes nothing: no command is written and the handler returns
    normally with the window as it was. *)
Theorem keys_gated_outside_normal (key : Key) (s : t) :
  current_mode s <> "N" \/ serial_thread s = None ->
  on_press key s = s /\ on_release key s = s.
Proof.
  intros H. unfold on_press, on_release.
  assert (G : negb (String.eqb (current_mode s) "N")
              || negb (bool_decide (is_Some (serial_thread s))) = true).
  { destruct H as [H|H].
    - apply String.eqb_neq in H. rewrite H. reflexivity.
    - rewrite H. apply orb_true_r. }
  rewrite G. split; reflexivity.
Qed.

Lemma keys_gated_outside_normal_witness :
  on_press Key_up (set_current_mode "A" (connected "COM3")) =
  set_current_mode "A" (connected "COM3") /\
  on_release Key_up (set_current_mode "A" (connected "COM3")) =
  set_current_mode "A" (connected "COM3").
Proof.
  apply (keys_gated_outside_normal Key_up
           (set_current_mode "A" (connected "COM3"))).
  left. simpl. discriminate.
Defined.

Lemma first_held_first (keys : gset string) (ps : list string) :
  forall (i : nat) (c : string),
    ps !! i = Some c -> c ∈ keys ->
    (forall (j : nat) (d : string), (j < i)%nat -> ps !! j = Some d -> d ∉ keys) ->
    first_held ps keys = Some c.
Proof.
  induction ps as [|p ps IH]; intros i c Hi Hc Hmin; [discriminate|].
  simpl. destruct i as [|i].
  - injection Hi as ->. rewrite bool_decide_eq_true_2 by exact Hc. reflexivity.
  - rewrite bool_decide_eq_false_2.
    + apply (IH i c); [exact Hi|exact Hc|].
      intros j d Hj Hd. apply (Hmin (S j) d); [lia|exact Hd].
    + apply (Hmin 0%nat p); [lia|reflexivity].
Qed.

Lemma first_held_none (keys : gset string) (ps : list string) :
  (forall d : string, d ∈ ps -> d ∉ keys) -> first_held ps keys = None.
Proof.
  induction ps as [|p ps IH]; intros H; [reflexivity|].
  simpl. rewrite bool_decide_eq_false_2.
  - apply IH. intros d Hd. apply H. right. exact Hd.
  - apply H. left.
Qed.

(** C5: the command [send_key_command] computes from the set of held keys
    is a function of that set: it is the first of F, B, L, R, P (in this
    order) that the set holds, and S when the set holds none of them, in
    particular when it is empty. *)
Theorem effective_command_priority (keys : gset string) :
  priority_cmds = ["F"; "B"; "L"; "R"; "P"] /\
  (forall (i : nat) (c : string),
      priority_cmds !! i = Some c -> c ∈ keys ->
      (forall (j : nat) (d : string),
          (j < i)%nat -> priority_cmds !! j = Some d -> d ∉ keys) ->
      effective_command keys = c) /\
  ((forall d : string, d ∈ priority_cmds -> d ∉ keys) ->
   effective_command keys = "S") /\
  (keys = ∅ -> effective_command keys = "S").
Proof.
  split; [reflexivity|]. split; [|split].
  - intros i c Hi Hc Hmin. unfold effective_command.
    rewrite (first_held_first keys priority_cmds i c Hi Hc Hmin). reflexivity.
  - intros H. unfold effective_command.
    rewrite (first_held_none keys priority_cmds H). reflexivity.
  - intros ->. reflexivity.
Qed.

Lemma effective_command_priority_witness :
  effective_command ({["P"]} ∪ {["L"]}) = "L" /\
  effective_command ∅ = "S".
Proof.
  split.
  - apply (effective_command_priority ({["P"]} ∪ {["L"]})) with (i := 2%nat).
    + reflexivity.
    + apply elem_of_union_r, elem_of_singleton. reflexivity.
    + intros j d Hj Hd.
      destruct j as [|[|j]]; [| |lia]; injection Hd as <-;
        rewrite elem_of_union, !elem_of_singleton; intros [?|?]; discriminate.
  - apply (effective_command_priority ∅). reflexivity.
Defined.

(** C6 (as the code has it): in Normal mode with a port that takes the
    write, pressing a key whose command is already held leaves the held
    set as it is and sends the current effective command once more; the
    handler keeps no record of the previous emission. *)
Theorem repeated_press_resends (key : Key) (cmd : string) (th : SerialThread.t) (s : t) :
  current_mode s = "N" ->
  serial_thread s = Some th ->
  SerialThread.ready th = true ->
  key_cmd key = Some cmd ->
  cmd ∈ active_keys s ->
  cmd <> EmptyString ->
  active_keys (on_press key s) = active_keys s /\
  written (on_press key s) = written s ++ [effective_command (active_keys s)].
Proof.
  intros Hm Ht Hr Hk Hc Hne. unfold on_press.
  rewrite Hm, Ht, Hk. simpl.
  apply String.eqb_neq in Hne. rewrite Hne.
  assert (E : {[cmd]} ∪ active_keys s = active_keys s).
  { apply subseteq_union_1_L, singleton_subseteq_l, Hc. }
  rewrite E. unfold send_key_command. cbn [serial_thread set_active_keys active_keys].
  rewrite Ht, (worker_send_ready _ _ _ Hr). cbn [fst snd].
  split; [reflexivity|].
  rewrite !written_calls. simpl. rewrite app_nil_r. reflexivity.
Qed.

Lemma repeated_press_resends_witness :
  active_keys (on_press Key_up (on_press Key_up (connected "COM3"))) =
  active_keys (on_press Key_up (connected "COM3")) /\
  written (on_press Key_up (on_press Key_up (connected "COM3"))) =
  written (on_press Key_up (connected "COM3")) ++
  [effective_command (active_keys (on_press Key_up (connected "COM3")))].
Proof.
  apply (repeated_press_resends Key_up "F" (SerialThread.opened "COM3")
           (on_press Key_up (connected "COM3")));
    try reflexivity; try discriminate.
Defined.

(** C6, the claim as stated fails: with F held, a second press of the same
    key writes F again. *)
Lemma repeated_press_counterexample :
  "F" ∈ active_keys (on_press Key_up (connected "COM3")) /\
  written (on_press Key_up (connected "COM3")) = ["N"; "F"] /\
  written (on_press Key_up (on_press Key_up (connected "COM3"))) =
  ["N"; "F"; "F"].
Proof.
  split; [|split]; [|reflexivity|reflexivity].
  apply elem_of_union_l, elem_of_singleton. reflexivity.
Qed.

(** ** Telemetry lines *)

Lemma split_nonempty (sep : ascii) (s : string) :
  exists f fs, Py.split sep s = f :: fs.
Proof.
  induction s as [|c s IH]; simpl; [eauto|].
  destruct (Ascii.eqb c sep); [eauto|].
  destruct IH as (f & fs & ->). eauto.
Qed.

(** A line in which the separator occurs has a second field. *)
Lemma split_second_field (sep : ascii) (s : string) :
  Py.contains (String sep EmptyString) s = true ->
  exists f g fs, Py.split sep s = f :: g :: fs.
Proof.
  induction s as [|c s IH]; simpl; [discriminate|].
  rewrite andb_true_r, (Ascii.eqb_sym sep c).
  destruct (Ascii.eqb c sep); simpl.
  - intros _. destruct (split_nonempty sep s) as (g & fs & ->). eauto.
  - intros H. destruct (IH H) as (f & g & fs & ->). eauto.
Qed.

(** Without the separator the line is its only field. *)
Lemma split_no_separator (sep : ascii) (s : string) :
  Py.contains (String sep EmptyString) s = false ->
  Py.split sep s = [s].
Proof.
  induction s as [|c s IH]; simpl; [reflexivity|].
  rewrite andb_true_r, (Ascii.eqb_sym sep c).
  destruct (Ascii.eqb c sep); simpl; [discriminate|].
  intros H. rewrite (IH H). reflexivity.
Qed.

Lemma startswith_char (c : ascii) (p s : string) :
  Py.startswith p s = true ->
  Py.contains (String c EmptyString) p = true ->
  Py.contains (String c EmptyString) s = true.
Proof.
  revert s. induction p as [|a p IH]; intros s; [discriminate|].
  destruct s as [|b s]; simpl; [discriminate|].
  rewrite !andb_true_r.
  destruct (Ascii.eqb a b) eqn:E; simpl; [|discriminate].
  apply Ascii.eqb_eq in E; subst b.
  intros Hp H. destruct (Ascii.eqb c a); simpl in *; [reflexivity|].
  apply (IH s Hp H).
Qed.

Lemma contains_char (c : ascii) (p s : string) :
  Py.contains p s = true ->
  Py.contains (String c EmptyString) p = true ->
  Py.contains (String c EmptyString) s = true.
Proof.
  intros H Hc. induction s as [|b s IH].
  - simpl in H. rewrite orb_false_r in H. apply (startswith_char c p _ H Hc).
  - cbn [Py.contains] in H. apply orb_true_iff in H as [H|H].
    + apply (startswith_char c p _ H Hc).
    + cbn [Py.contains]. rewrite (IH H). apply orb_true_r.
Qed.

(** The [Mode:] branch: taken for every line that holds [Mode:] and not
    [Error]; the second colon-separated field, stripped, becomes the
    mode. *)
Lemma handle_mode_line (data : string) (s : t) :
  Py.contains "Error" data = false ->
  Py.contains "Mode:" data = true ->
  exists f,
    Py.split Py.colon data !! 1%nat = Some f /\
    handle_serial_data data s =
    calls (mode_calls (Py.strip f)) (set_current_mode (Py.strip f) s).
Proof.
  intros He Hm.
  destruct (split_second_field Py.colon data) as (f & g & fs & E).
  { apply (contains_char Py.colon "Mode:" data Hm). reflexivity. }
  exists g. rewrite E. split; [reflexivity|].
  unfold handle_serial_data. rewrite He, Hm, E. reflexivity.
Qed.

Lemma show_error_teardown (m : string) (s : t) :
  serial_thread (show_error m s) = None /\
  voice_thread (show_error m s) = None /\
  listener (show_error m s) = false.
Proof. open_state s; repeat split. Qed.

(** C7 (as the code has it): a line [Mode:<value>] without [Error] in it
    sets [current_mode] whatever the value is, N, V, A or anything else:
    to the value up to its first colon (all of it when it has none),
    stripped of the white space around it.  The handler shows that text
    on the mode label, updates the auto status text and logs it, and
    leaves the serial thread, the voice thread, the listener, the held
    keys, the failsafe time and the queued errors as they were. *)
Theorem mode_line_sets_any_value (value : string) (s : t) :
  Py.contains "Error" ("Mode:" +:+ value) = false ->
  exists f : string,
    head (Py.split Py.colon value) = Some f /\
    (Py.contains ":" value = false -> f = value) /\
    current_mode (handle_serial_data ("Mode:" +:+ value) s) = Py.strip f /\
    trace (handle_serial_data ("Mode:" +:+ value) s) =
    trace s ++ mode_calls (Py.strip f) /\
    serial_thread (handle_serial_data ("Mode:" +:+ value) s) = serial_thread s /\
    voice_thread (handle_serial_data ("Mode:" +:+ value) s) = voice_thread s /\
    listener (handle_serial_data ("Mode:" +:+ value) s) = listener s /\
    active_keys (handle_serial_data ("Mode:" +:+ value) s) = active_keys s /\
    last_cmd_time (handle_serial_data ("Mode:" +:+ value) s) = last_cmd_time s /\
    queued (handle_serial_data ("Mode:" +:+ value) s) = queued s.
Proof.
  intros He.
  destruct (handle_mode_line ("Mode:" +:+ value) s He) as (f & Hf & ->);
    [reflexivity|].
  change (Py.split Py.colon ("Mode:" +:+ value))
    with ("Mode" :: Py.split Py.colon value) in Hf.
  exists f. split.
  { destruct (split_nonempty Py.colon value) as (g & fs & E).
    rewrite E in Hf |- *. injection Hf as <-. reflexivity. }
  split.
  { intros Hv. rewrite (split_no_separator Py.colon value Hv) in Hf.
    injection Hf as <-. reflexivity. }
  repeat split.
Qed.

Lemma mode_line_sets_any_value_witness :
  current_mode (handle_serial_data ("Mode:" +:+ "X") (connected "COM3")) = "X" /\
  current_mode (handle_serial_data ("Mode:" +:+ " a:b") (connected "COM3")) =
  "a".
Proof.
  split.
  - destruct (mode_line_sets_any_value "X" (connected "COM3") eq_refl)
      as (f & Hf & _ & -> & _).
    injection Hf as <-. reflexivity.
  - destruct (mode_line_sets_any_value " a:b" (connected "COM3") eq_refl)
      as (f & Hf & _ & -> & _).
    injection Hf as <-. reflexivity.
Defined.

(** C7, the claim as stated fails: the value X is none of N, V, A, and the
    line [Mode:X] changes the mode from N to X. *)
Lemma mode_line_counterexample :
  current_mode (connected "COM3") = "N" /\
  current_mode (handle_serial_data "Mode:X" (connected "COM3")) = "X".
Proof. split; reflexivity. Qed.

Lemma agrees_from_sound (k : nat) :
  forall lo soil : Z,
    agrees_from k lo = true ->
    (lo <= soil < lo + 2 ^ Z.of_nat k)%Z ->
    percent_agrees soil = true.
Proof.
  induction k as [|k IH]; intros lo soil H Hr.
  - simpl in *. assert (soil = lo) by lia. subst. exact H.
  - cbn [agrees_from] in H. apply andb_true_iff in H as [H1 H2].
    rewrite Nat2Z.inj_succ, Z.pow_succ_r in Hr by lia.
    destruct (Z_lt_ge_dec soil (lo + 2 ^ Z.of_nat k)) as [Hlt|Hge].
    + apply (IH lo soil H1). lia.
    + apply (IH _ soil H2). lia.
Qed.

(** C8 (as the code has it): the percentage is the float quotient
    truncated towards zero, [int((1023 - soil) / 1023 * 100)], not the
    nearest integer: on every reading from -32768 to 32767 it equals the
    truncation of the exact quotient, and the line [Soil:512] sets the bar
    to 512 and shows 49 percent. *)
Theorem soil_percent_truncates :
  (forall soil : Z,
      (-32768 <= soil <= 32767)%Z ->
      moisture_percent soil = Some (truncated_percent soil)) /\
  (forall s : t,
      handle_serial_data "Soil:512" s =
      calls [SetToolTip "soil_bar" "49% moisture";
             Append "log_text" "Soil Moisture: 512 (49%)"]
            (calls [SetValue "soil_bar" 512] s)).
Proof.
  split.
  - intros soil Hr.
    assert (H : percent_agrees soil = true).
    { apply (agrees_from_sound 16 (-32768)); [vm_compute; reflexivity|].
      change (2 ^ Z.of_nat 16)%Z with 65536%Z. lia. }
    unfold percent_agrees in H.
    destruct (moisture_percent soil) as [pct|]; [|discriminate].
    apply Z.eqb_eq in H. congruence.
  - intros s. reflexivity.
Qed.

Lemma soil_percent_truncates_witness :
  moisture_percent 512 = Some (truncated_percent 512).
Proof. apply soil_percent_truncates. lia. Defined.

(** C8, the claim as stated fails: for the reading 512 the nearest integer
    is 50 and the code shows 49. *)
Lemma soil_percent_counterexample :
  rounded_percent 512 = 50%Z /\
  moisture_percent 512 = Some 49%Z /\
  trace (handle_serial_data "Soil:512" init) =
  [SetValue "soil_bar" 512;
   SetToolTip "soil_bar" "49% moisture";
   Append "log_text" "Soil Moisture: 512 (49%)"].
Proof. repeat split; vm_compute; reflexivity. Qed.

Lemma dist_is_not_soil (data : string) :
  Py.startswith "Dist:" data = true -> Py.startswith "Soil:" data = false.
Proof.
  destruct data as [|c d]; [discriminate|].
  cbn [Py.startswith].
  destruct (Ascii.eqb "D" c) eqn:E; cbn [andb]; [|discriminate].
  apply Ascii.eqb_eq in E. subst c. reflexivity.
Qed.

(** A line that starts with one of the two prefixes has a second field. *)
Lemma prefixed_second_field (prefix data : string) :
  Py.contains ":" prefix = true ->
  Py.startswith prefix data = true ->
  exists f, Py.split Py.colon data !! 1%nat = Some f.
Proof.
  intros Hp Hs.
  destruct (split_second_field Py.colon data) as (f & g & fs & E).
  { apply (startswith_char Py.colon prefix data Hs Hp). }
  exists g. rewrite E. reflexivity.
Qed.

(** C9: the branches of [handle_serial_data] are tried in order.  A line
    with [Error] anywhere in it goes to [show_error], which tears the
    session down, whatever else the line looks like; otherwise a line with
    [Mode:] anywhere in it, at its start or not, sets the mode from its
    second colon-separated field.  Otherwise a line that starts with
    [Soil:] is a soil reading: its second field, when [int] reads it as a
    C int, goes to the bar with its percentage, and is logged as invalid
    when not; and a line that starts with [Dist:] puts its stripped second
    field on the distance label.  [Soil:] and [Dist:] count only at the
    start of the line: a line that holds them elsewhere is the connect
    notice or a plain received line. *)
Theorem telemetry_branch_order (data : string) (s : t) :
  (Py.contains "Error" data = true ->
   handle_serial_data data s = show_error data s /\
   serial_thread (handle_serial_data data s) = None /\
   voice_thread (handle_serial_data data s) = None /\
   listener (handle_serial_data data s) = false) /\
  (Py.contains "Error" data = false ->
   Py.contains "Mode:" data = true ->
   exists f,
     Py.split Py.colon data !! 1%nat = Some f /\
     handle_serial_data data s =
     calls (mode_calls (Py.strip f)) (set_current_mode (Py.strip f) s)) /\
  (Py.contains "Error" data = false ->
   Py.contains "Mode:" data = false ->
   Py.startswith "Soil:" data = true ->
   exists f,
     Py.split Py.colon data !! 1%nat = Some f /\
     (Py.int f = None -> handle_serial_data data s = invalid_soil s) /\
     (forall soil : Z,
         Py.int f = Some soil -> fits_c_int soil = false ->
         handle_serial_data data s = invalid_soil s) /\
     (forall soil pct : Z,
         Py.int f = Some soil -> fits_c_int soil = true ->
         moisture_percent soil = Some pct ->
         handle_serial_data data s =
         calls [SetToolTip "soil_bar" (pretty pct +:+ "% moisture");
                Append "log_text"
                  ("Soil Moisture: " +:+ pretty soil +:+
                   " (" +:+ pretty pct +:+ "%)")]
               (calls [SetValue "soil_bar" soil] s))) /\
  (Py.contains "Error" data = false ->
   Py.contains "Mode:" data = false ->
   Py.startswith "Dist:" data = true ->
   exists f,
     Py.split Py.colon data !! 1%nat = Some f /\
     handle_serial_data data s =
     calls [SetText "dist_label" (Py.strip f +:+ " cm")] s) /\
  (Py.contains "Error" data = false ->
   Py.contains "Mode:" data = false ->
   Py.startswith "Soil:" data = false ->
   Py.startswith "Dist:" data = false ->
   handle_serial_data data s =
   if String.eqb data "Connected to Arduino"
   then calls [SetText "status_label" "Status: Connected";
               Append "log_text" data] s
   else calls [Append "log_text" ("Received: " +:+ data)] s).
Proof.
  split; [|split; [|split; [|split]]].
  - intros He. unfold handle_serial_data. rewrite He.
    split; [reflexivity|]. apply show_error_teardown.
  - apply handle_mode_line.
  - intros He Hm Hs.
    destruct (prefixed_second_field "Soil:" data eq_refl Hs) as (f & Hf).
    exists f. split; [exact Hf|].
    unfold handle_serial_data. rewrite He, Hm, Hs, Hf. cbn [mbind option_bind].
    split; [|split].
    + intros ->. reflexivity.
    + intros soil -> ->. reflexivity.
    + intros soil pct -> -> ->. reflexivity.
  - intros He Hm Hd.
    destruct (prefixed_second_field "Dist:" data eq_refl Hd) as (f & Hf).
    exists f. split; [exact Hf|].
    unfold handle_serial_data.
    rewrite He, Hm, (dist_is_not_soil data Hd), Hd, Hf. reflexivity.
  - intros He Hm Hs Hd. unfold handle_serial_data.
    rewrite He, Hm, Hs, Hd. reflexivity.
Qed.

Lemma telemetry_branch_order_witness :
  (Py.startswith "Soil:" "Soil:Error" = true /\
   handle_serial_data "Soil:Error" (connected "COM3") =
   show_error "Soil:Error" (connected "COM3")) /\
  (Py.startswith "Mode:" "xMode:V" = false /\
   current_mode (handle_serial_data "xMode:V" (connected "COM3")) = "V") /\
  (handle_serial_data "Soil:wet" (connected "COM3") =
   invalid_soil (connected "COM3")) /\
  (handle_serial_data "Dist: 42 " (connected "COM3") =
   calls [SetText "dist_label" "42 cm"] (connected "COM3")) /\
  (Py.contains "Soil:" "xSoil:512" = true /\
   handle_serial_data "xSoil:512" (connected "COM3") =
   calls [Append "log_text" "Received: xSoil:512"] (connected "COM3")).
Proof.
  split; [|split; [|split; [|split]]].
  - split; [reflexivity|].
    apply (telemetry_branch_order "Soil:Error" (connected "COM3")).
    reflexivity.
  - split; [reflexivity|].
    destruct (telemetry_branch_order "xMode:V" (connected "COM3"))
      as (_ & H & _).
    destruct H as (f & Hf & ->); [reflexivity|reflexivity|].
    injection Hf as <-. reflexivity.
  - destruct (telemetry_branch_order "Soil:wet" (connected "COM3"))
      as (_ & _ & H & _).
    destruct H as (f & Hf & H & _); [reflexivity|reflexivity|reflexivity|].
    injection Hf as <-. apply H. reflexivity.
  - destruct (telemetry_branch_order "Dist: 42 " (connected "COM3"))
      as (_ & _ & _ & H & _).
    destruct H as (f & Hf & ->); [reflexivity|reflexivity|reflexivity|].
    injection Hf as <-. reflexivity.
  - split; [reflexivity|].
    apply (telemetry_branch_order "xSoil:512" (connected "COM3"));
      reflexivity.
Defined.

(** ** Mode switches, voice commands and the failsafe timer *)

Arguments gui_send : simpl never.
Arguments worker_send : simpl never.
Arguments show_error : simpl never.

(** The fields a handler's sends and error dialogs leave alone. *)
Lemma show_error_keeps (m : string) (s : t) :
  current_mode (show_error m s) = current_mode s /\
  last_cmd_time (show_error m s) = last_cmd_time s.
Proof. open_state s; split; reflexivity. Qed.

Lemma gui_send_keeps (th : SerialThread.t) (command : string) (s : t) :
  current_mode (snd (gui_send th command s)) = current_mode s /\
  last_cmd_time (snd (gui_send th command s)) = last_cmd_time s.
Proof.
  unfold gui_send.
  destruct (send_cases command th) as [E|[E|[m E]]]; rewrite E; simpl;
    try (split; reflexivity).
  apply show_error_keeps.
Qed.

Lemma worker_send_keeps (th : SerialThread.t) (command : string) (s : t) :
  current_mode (snd (worker_send th command s)) = current_mode s /\
  last_cmd_time (snd (worker_send th command s)) = last_cmd_time s.
Proof.
  unfold worker_send.
  destruct (send_cases command th) as [E|[E|[m E]]]; rewrite E; simpl;
    split; reflexivity.
Qed.

Create HintDb keeps_time.

Section FailsafeTimeKept.

(** Only [update_status] assigns [last_cmd_time]. *)

Lemma switch_mode_with_keeps_time (toggle : t -> t) :
  (forall s, last_cmd_time (toggle s) = last_cmd_time s) ->
  forall mode s, last_cmd_time (switch_mode_with toggle mode s) = last_cmd_time s.
Proof.
  intros Ht mode s. unfold switch_mode_with.
  destruct (serial_thread s) as [th|]; [|reflexivity].
  pose proof (proj2 (gui_send_keeps th mode s)) as K.
  destruct (fst (gui_send th mode s)); [|exact K].
  destruct (String.eqb mode "V" && _); [exact K|].
  destruct (String.eqb mode "A"); [exact K|].
  destruct (String.eqb mode "N"); [|exact K].
  cbn [voice_thread calls set_current_mode].
  destruct (voice_thread (snd (gui_send th mode s))); [|exact K].
  rewrite Ht. exact K.
Qed.

Lemma start_voice_keeps_time (s : t) :
  last_cmd_time (start_voice s) = last_cmd_time s.
Proof.
  unfold start_voice.
  destruct (serial_thread s) as [th|]; [|apply show_error_keeps].
  pose proof (proj2 (gui_send_keeps th "V" s)) as K.
  destruct (fst (gui_send th "V" s)); exact K.
Qed.

Lemma toggle_voice_keeps_time (s : t) :
  last_cmd_time (toggle_voice s) = last_cmd_time s.
Proof.
  unfold toggle_voice, toggle_voice_with.
  destruct (voice_thread s) as [[[]]|]; cbn [VoiceThread.isRunning];
    try apply start_voice_keeps_time.
  cbn [last_cmd_time calls].
  rewrite switch_mode_with_keeps_time; reflexivity.
Qed.

Lemma switch_mode_keeps_time (mode : string) (s : t) :
  last_cmd_time (switch_mode mode s) = last_cmd_time s.
Proof.
  apply switch_mode_with_keeps_time, toggle_voice_keeps_time.
Qed.

Lemma send_key_command_keeps_time (s : t) :
  last_cmd_time (send_key_command s) = last_cmd_time s.
Proof.
  unfold send_key_command.
  destruct (serial_thread s) as [th|]; [|reflexivity].
  pose proof (proj2 (worker_send_keeps th
                       (effective_command (active_keys s)) s)) as K.
  destruct (fst (worker_send th _ s)); exact K.
Qed.

Lemma on_press_keeps_time (key : Key) (s : t) :
  last_cmd_time (on_press key s) = last_cmd_time s.
Proof.
  unfold on_press.
  destruct (negb _ || negb _); [reflexivity|].
  destruct (key_cmd key) as [cmd|]; [|reflexivity].
  destruct (String.eqb cmd EmptyString); [reflexivity|].
  rewrite send_key_command_keeps_time. reflexivity.
Qed.

Lemma on_release_keeps_time (key : Key) (s : t) :
  last_cmd_time (on_release key s) = last_cmd_time s.
Proof.
  unfold on_release.
  destruct (negb _ || negb _); [reflexivity|].
  destruct (key_cmd key) as [cmd|]; [|reflexivity].
  destruct (bool_decide _); [|reflexivity].
  rewrite send_key_command_keeps_time. reflexivity.
Qed.

Lemma voice_pass_keeps_time (h : VoiceThread.heard) (s : t) :
  last_cmd_time (voice_pass h s) = last_cmd_time s.
Proof.
  unfold voice_pass.
  destruct (voice_thread s) as [[[]]|]; cbn [VoiceThread.isRunning];
    try reflexivity.
  destruct h as [text| | |e]; try reflexivity.
  destruct (VoiceThread.command_of text) as [cmd|]; [|reflexivity].
  cbn [serial_thread calls].
  destruct (serial_thread s) as [th|]; [|reflexivity].
  pose proof (proj2 (worker_send_keeps th cmd (calls [listening; processing] s))) as K.
  destruct (fst (worker_send th cmd _)); exact K.
Qed.

Lemma handle_serial_data_keeps_time (data : string) (s : t) :
  last_cmd_time (handle_serial_data data s) = last_cmd_time s.
Proof.
  unfold handle_serial_data, invalid_soil.
  repeat match goal with
         | |- context [show_error ?m ?x] =>
             rewrite (proj2 (show_error_keeps m x))
         | |- context [if ?b then _ else _] => destruct b
         | |- context [match ?o with Some _ => _ | None => _ end] =>
             destruct o
         end; reflexivity.
Qed.

End FailsafeTimeKept.

#[local] Hint Resolve on_press_keeps_time on_release_keeps_time
  voice_pass_keeps_time switch_mode_keeps_time toggle_voice_keeps_time
  handle_serial_data_keeps_time : keeps_time.

(** [stale] is the comparison it embeds. *)
Lemma stale_true (now last : Q) : (5 < now - last)%Q -> stale now last = true.
Proof.
  intros H. unfold stale. apply negb_true_iff.
  destruct (Qle_bool (now - last) 5) eqn:E; [|reflexivity].
  apply Qle_bool_iff in E. exfalso. apply (Qlt_not_le _ _ H E).
Qed.

Lemma stale_false (now last : Q) : (now - last <= 5)%Q -> stale now last = false.
Proof.
  intros H. unfold stale. apply negb_false_iff, Qle_bool_iff, H.
Qed.

(** The timer slot on a port that takes the writes. *)
Lemma update_status_ready (now now' : Q) (th : SerialThread.t) (s : t) :
  serial_thread s = Some th ->
  SerialThread.ready th = true ->
  update_status now now' s =
  let s1 := if polls (current_mode s) then calls [SerWrite "D"] s else s in
  if stale now (last_cmd_time s)
  then set_last_cmd_time now' (calls [SerWrite "S"] s1)
  else s1.
Proof.
  intros Ht Hr. unfold update_status. rewrite Ht.
  rewrite (gui_send_ready th "D" s Hr). cbn [snd].
  destruct (polls (current_mode s)); cbn zeta.
  - cbn [last_cmd_time serial_thread calls].
    destruct (stale now (last_cmd_time s)); [|reflexivity].
    rewrite Ht, (gui_send_ready th "S" _ Hr). reflexivity.
  - destruct (stale now (last_cmd_time s)); [|reflexivity].
    rewrite Ht, (gui_send_ready th "S" _ Hr). reflexivity.
Qed.

(** C1 (as the code has it): [last_cmd_time] is the time of the last
    failsafe Stop (0 at start), not of the last command.  On a session
    whose port takes the writes, a tick whose clock reading exceeds
    [last_cmd_time] by more than 5 seconds sends S once and stores the
    clock reading, so that a next tick read at most 5 seconds after it
    sends no S; a tick at most 5 seconds after [last_cmd_time] sends no S
    and leaves it alone; and no other handler, whatever command it sends,
    changes [last_cmd_time]. *)
Theorem failsafe_stop_by_own_timer (now now' : Q) (th : SerialThread.t) (s : t) :
  serial_thread s = Some th ->
  SerialThread.ready th = true ->
  ((5 < now - last_cmd_time s)%Q ->
   written (update_status now now' s) =
   written s ++ (if polls (current_mode s) then ["D"] else []) ++ ["S"] /\
   last_cmd_time (update_status now now' s) = now' /\
   forall next next' : Q,
     (next - now' <= 5)%Q ->
     written (update_status next next' (update_status now now' s)) =
     written (update_status now now' s) ++
     (if polls (current_mode s) then ["D"] else [])) /\
  ((now - last_cmd_time s <= 5)%Q ->
   written (update_status now now' s) =
   written s ++ (if polls (current_mode s) then ["D"] else []) /\
   last_cmd_time (update_status now now' s) = last_cmd_time s) /\
  (forall (key : Key) (h : VoiceThread.heard) (mode data : string),
      last_cmd_time (on_press key s) = last_cmd_time s /\
      last_cmd_time (on_release key s) = last_cmd_time s /\
      last_cmd_time (voice_pass h s) = last_cmd_time s /\
      last_cmd_time (switch_mode mode s) = last_cmd_time s /\
      last_cmd_time (toggle_voice s) = last_cmd_time s /\
      last_cmd_time (handle_serial_data data s) = last_cmd_time s).
Proof.
  intros Ht Hr. split; [|split].
  - intros Hs. rewrite (update_status_ready now now' th s Ht Hr). cbn zeta.
    rewrite (stale_true _ _ Hs).
    split; [|split].
    + destruct (polls (current_mode s)); written_norm; reflexivity.
    + reflexivity.
    + intros next next' Hn.
      rewrite (update_status_ready next next' th); [|
        destruct (polls (current_mode s)); exact Ht | exact Hr].
      cbn zeta.
      assert (L : last_cmd_time
                    (set_last_cmd_time now'
                       (calls [SerWrite "S"]
                          (if polls (current_mode s)
                           then calls [SerWrite "D"] s else s))) = now')
        by reflexivity.
      rewrite L, (stale_false _ _ Hn).
      assert (M : current_mode
                    (set_last_cmd_time now'
                       (calls [SerWrite "S"]
                          (if polls (current_mode s)
                           then calls [SerWrite "D"] s else s))) =
                  current_mode s)
        by (destruct (polls (current_mode s)); reflexivity).
      rewrite M.
      destruct (polls (current_mode s)); written_norm; reflexivity.
  - intros Hs. rewrite (update_status_ready now now' th s Ht Hr). cbn zeta.
    rewrite (stale_false _ _ Hs).
    destruct (polls (current_mode s)).
    + rewrite written_calls. split; reflexivity.
    + rewrite app_nil_r. split; reflexivity.
  - intros key h mode data.
    repeat split; auto with keeps_time.
Qed.

Lemma failsafe_stop_by_own_timer_witness :
  written (update_status 100 100 (connected "COM3")) =
  written (connected "COM3") ++ ["D"] ++ ["S"] /\
  last_cmd_time (update_status 100 100 (connected "COM3")) = 100%Q /\
  written (update_status 105 105 (update_status 100 100 (connected "COM3"))) =
  written (update_status 100 100 (connected "COM3")) ++ ["D"].
Proof.
  destruct (failsafe_stop_by_own_timer 100 100 (SerialThread.opened "COM3")
              (connected "COM3") eq_refl eq_refl) as (H & _ & _).
  destruct H as (H1 & H2 & H3); [reflexivity|].
  split; [exact H1|]. split; [exact H2|].
  apply (H3 105%Q 105%Q). discriminate.
Defined.

(** C1, the claim as stated fails: the tick at 100 s sends S and the tick
    at 105 s does not; the key press that follows sends F, and it leaves
    the timer at 100 s, so the tick at 106 s, less than a second after
    that command, sends S again. *)
Lemma failsafe_counterexample :
  written (update_status 105 105 (update_status 100 100 (connected "COM3"))) =
  ["N"; "D"; "S"; "D"] /\
  written (on_press (KeyCode (Some "w"))
             (update_status 105 105
                (update_status 100 100 (connected "COM3")))) =
  ["N"; "D"; "S"; "D"; "F"] /\
  last_cmd_time (on_press (KeyCode (Some "w"))
                   (update_status 105 105
                      (update_status 100 100 (connected "COM3")))) = 100%Q /\
  written (update_status 106 106
             (on_press (KeyCode (Some "w"))
                (update_status 105 105
                   (update_status 100 100 (connected "COM3"))))) =
  ["N"; "D"; "S"; "D"; "F"; "D"; "S"].
Proof. repeat split; vm_compute; reflexivity. Qed.

(** With no voice thread, [switch_mode] does not reach its call of
    [toggle_voice]: the body gives the same result whatever that call
    would do.  This is the case of the call made inside [toggle_voice]. *)
Lemma switch_mode_with_no_voice (f g : t -> t) (mode : string) (s : t) :
  voice_thread s = None ->
  switch_mode_with f mode s = switch_mode_with g mode s.
Proof.
  intros Hv. unfold switch_mode_with.
  destruct (serial_thread s) as [th|]; [|reflexivity].
  assert (K : voice_thread (snd (gui_send th mode s)) = None).
  { unfold gui_send.
    destruct (send_cases mode th) as [E|[E|[m E]]]; rewrite E; simpl;
      [exact Hv|exact Hv|apply show_error_teardown]. }
  destruct (fst (gui_send th mode s)); [|reflexivity].
  cbn [voice_thread calls set_current_mode]. rewrite K. reflexivity.
Qed.

(** The inner [switch_mode('N')] of [toggle_voice], on a ready port. *)
Lemma switch_normal_inner (th : SerialThread.t) (s : t) :
  serial_thread s = Some th ->
  SerialThread.ready th = true ->
  voice_thread s = None ->
  switch_mode_with (fun s' => s') "N" s =
  calls [SerWrite "N"; SetText "mode_label" "N";
         Append "normal_status" "Normal Mode activated"]
        (set_current_mode "N" s).
Proof.
  intros Ht Hr Hv. unfold switch_mode_with.
  rewrite Ht, (gui_send_ready th "N" s Hr). cbn [fst snd].
  cbn. rewrite Hv. unfold calls, set_current_mode; cbn.
  f_equal. rewrite <- !app_assoc. reflexivity.
Qed.

(** C2 (as the code has it): only the Voice request waits for its
    acknowledgement.  A request made through [switch_mode] (the Auto
    button passes A; the connection check and the stop of voice control
    pass N) applies at once: when the send of the mode character
    succeeds, [current_mode] is the requested mode when [switch_mode]
    returns, with no acknowledgement line handled, and the mode character
    is the first thing written; when there is no serial thread or its
    send returns [False], the mode and the bytes written are as before.
    The Voice request is [toggle_voice] starting voice control: on a port
    that takes the write it sends V and leaves [current_mode] as it was,
    and the line [Mode:V] then sets it to V. *)
Theorem mode_requests_apply_except_voice (mode : string) (s : t) :
  (forall th : SerialThread.t,
      serial_thread s = Some th ->
      SerialThread.ready th = true ->
      current_mode (switch_mode mode s) = mode /\
      exists rest, written (switch_mode mode s) = written s ++ mode :: rest) /\
  (serial_thread s = None \/
   (exists th, serial_thread s = Some th /\
               fst (SerialThread.send mode th) = false) ->
   current_mode (switch_mode mode s) = current_mode s /\
   written (switch_mode mode s) = written s) /\
  (forall th : SerialThread.t,
      serial_thread s = Some th ->
      SerialThread.ready th = true ->
      voice_thread s = None \/
      voice_thread s = Some {| VoiceThread.isRunning := false |} ->
      voice_thread (toggle_voice s) =
      Some {| VoiceThread.isRunning := true |} /\
      written (toggle_voice s) = written s ++ ["V"] /\
      current_mode (toggle_voice s) = current_mode s /\
      current_mode (handle_serial_data "Mode:V" (toggle_voice s)) = "V").
Proof.
  split; [|split].
  - intros th Ht Hr. unfold switch_mode, switch_mode_with.
    rewrite Ht, (gui_send_ready th mode s Hr). cbn [fst snd].
    cbn [voice_thread calls set_current_mode].
    destruct (String.eqb mode "V" && _).
    { split; [reflexivity|]. exists []. written_norm. reflexivity. }
    destruct (String.eqb mode "A").
    { split; [reflexivity|]. exists []. written_norm. reflexivity. }
    destruct (String.eqb mode "N") eqn:EN.
    2:{ split; [reflexivity|]. exists []. written_norm. reflexivity. }
    apply String.eqb_eq in EN. subst mode.
    destruct (voice_thread s) as [[running]|] eqn:Ev.
    2:{ split; [reflexivity|]. exists []. written_norm. reflexivity. }
    unfold toggle_voice, toggle_voice_with.
    cbn [voice_thread calls set_current_mode]. rewrite Ev.
    cbn [VoiceThread.isRunning]. destruct running.
    + rewrite (switch_normal_inner th); [|exact Ht|exact Hr|reflexivity].
      split; [reflexivity|]. exists ["N"]. written_norm. reflexivity.
    + unfold start_voice. cbn [serial_thread calls set_current_mode].
      rewrite Ht, (gui_send_ready th "V" _ Hr). cbn [fst snd].
      split; [reflexivity|]. exists ["V"]. written_norm. reflexivity.
  - intros [Hn|(th & Ht & Hf)]; unfold switch_mode, switch_mode_with.
    + rewrite Hn. split; reflexivity.
    + rewrite Ht.
      assert (G : fst (gui_send th mode s) = false) by exact Hf.
      rewrite G. split.
      * apply gui_send_keeps.
      * apply gui_send_false, G.
  - intros th Ht Hr Hv.
    assert (E : toggle_voice s =
                calls [SetText "voice_btn" "Stop Voice Control";
                       Append "voice_status" "Voice control started"]
                  (set_voice_thread
                     (Some {| VoiceThread.isRunning := true |})
                     (calls [SerWrite "V"] s))).
    { unfold toggle_voice, toggle_voice_with, start_voice.
      destruct Hv as [Hv|Hv]; rewrite Hv; cbn [VoiceThread.isRunning];
        rewrite Ht, (gui_send_ready th "V" s Hr); reflexivity. }
    rewrite E. split; [reflexivity|].
    split; [written_norm; reflexivity|].
    split; reflexivity.
Qed.

Lemma mode_requests_apply_except_voice_witness :
  (current_mode (switch_mode "A" (connected "COM3")) = "A" /\
   exists rest,
     written (switch_mode "A" (connected "COM3")) =
     written (connected "COM3") ++ "A" :: rest) /\
  (current_mode (switch_mode "A" init) = current_mode init /\
   written (switch_mode "A" init) = written init) /\
  (voice_thread (toggle_voice (connected "COM3")) =
   Some {| VoiceThread.isRunning := true |} /\
   written (toggle_voice (connected "COM3")) =
   written (connected "COM3") ++ ["V"] /\
   current_mode (toggle_voice (connected "COM3")) =
   current_mode (connected "COM3") /\
   current_mode
     (handle_serial_data "Mode:V" (toggle_voice (connected "COM3"))) = "V").
Proof.
  split; [|split].
  - apply (mode_requests_apply_except_voice "A" (connected "COM3"))
      with (th := SerialThread.opened "COM3"); reflexivity.
  - apply (mode_requests_apply_except_voice "A" init). left. reflexivity.
  - apply (mode_requests_apply_except_voice "A" (connected "COM3"))
      with (th := SerialThread.opened "COM3"); try reflexivity.
    left. reflexivity.
Defined.

(** C2, the claim as stated fails: after a connect the mode is N; a click
    on the Auto button then leaves the mode at A, with A written, although
    no telemetry line, so no [Mode:A], has been handled. *)
Lemma auto_click_counterexample :
  current_mode (after connect_events) = "N" /\
  written (after connect_events) = ["N"] /\
  current_mode (after (connect_events ++ [AutoClicked])) = "A" /\
  written (after (connect_events ++ [AutoClicked])) = ["N"; "A"].
Proof. repeat split; vm_compute; reflexivity. Qed.

(** C4 (as the code has it): the voice loop does not look at the mode.  A
    running voice thread on a port that takes the write sends the command
    of every transcript that holds one of its words, whatever
    [current_mode] is, and leaves the mode as it is; without a running
    voice thread a pass of the loop does nothing. *)
Theorem voice_dispatch_ignores_mode (text cmd : string) (th : SerialThread.t) (s : t) :
  (voice_thread s = Some {| VoiceThread.isRunning := true |} ->
   serial_thread s = Some th ->
   SerialThread.ready th = true ->
   VoiceThread.command_of text = Some cmd ->
   forall mode : string,
     written (voice_pass (VoiceThread.Transcript text)
                (set_current_mode mode s)) = written s ++ [cmd] /\
     current_mode (voice_pass (VoiceThread.Transcript text)
                     (set_current_mode mode s)) = mode) /\
  (voice_thread s = None \/
   voice_thread s = Some {| VoiceThread.isRunning := false |} ->
   forall h : VoiceThread.heard, voice_pass h s = s).
Proof.
  split.
  - intros Hv Ht Hr Hc mode. unfold voice_pass.
    cbn [voice_thread set_current_mode]. rewrite Hv.
    cbn [VoiceThread.isRunning]. rewrite Hc.
    cbn [serial_thread calls set_current_mode]. rewrite Ht.
    rewrite (worker_send_ready th cmd _ Hr). cbn [fst snd].
    split; [written_norm; reflexivity|reflexivity].
  - intros [Hv|Hv] h; unfold voice_pass; rewrite Hv; reflexivity.
Qed.

Lemma voice_dispatch_ignores_mode_witness :
  (written (voice_pass (VoiceThread.Transcript "go forward")
              (set_current_mode "A" (toggle_voice (connected "COM3")))) =
   written (toggle_voice (connected "COM3")) ++ ["F"] /\
   current_mode (voice_pass (VoiceThread.Transcript "go forward")
                   (set_current_mode "A" (toggle_voice (connected "COM3")))) =
   "A") /\
  voice_pass (VoiceThread.Transcript "go forward") (connected "COM3") =
  connected "COM3".
Proof.
  split.
  - apply (voice_dispatch_ignores_mode "go forward" "F"
             (SerialThread.opened "COM3") (toggle_voice (connected "COM3")));
      reflexivity.
  - apply (voice_dispatch_ignores_mode "go forward" "F"
             (SerialThread.opened "COM3") (connected "COM3")).
    left. reflexivity.
Defined.

(** C4, the claim as stated fails: starting voice control sends V and
    leaves [current_mode] at N (no [Mode:V] line yet); the transcript
    "forward" is then written as F although the mode is not V.  The same
    happens after a switch to Auto mode, which does not stop the voice
    thread. *)
Lemma voice_dispatch_counterexample :
  current_mode (toggle_voice (connected "COM3")) = "N" /\
  written (voice_pass (VoiceThread.Transcript "forward")
             (toggle_voice (connected "COM3"))) = ["N"; "V"; "F"] /\
  current_mode (switch_mode "A" (toggle_voice (connected "COM3"))) = "A" /\
  written (voice_pass (VoiceThread.Transcript "forward")
             (switch_mode "A" (toggle_voice (connected "COM3")))) =
  ["N"; "V"; "A"; "F"].
Proof. repeat split. Qed.

(** * Further properties of the handlers *)

(** ** What every run of the window keeps *)

Lemma ui_only_written (cs : list call) (s : t) :
  ui_only cs = true -> written (calls cs s) = written s.
Proof.
  intros H. rewrite written_calls.
  assert (E : omap is_write cs = []).
  { induction cs as [|c cs IH]; [reflexivity|].
    simpl in H. apply andb_true_iff in H as [Hc Hcs].
    simpl. destruct (is_write c); [discriminate|]. apply IH, Hcs. }
  rewrite E. apply app_nil_r.
Qed.

(** [sound] looks at four fields only. *)
Lemma sound_fields (s s' : t) :
  serial_thread s' = serial_thread s ->
  voice_thread s' = voice_thread s ->
  active_keys s' = active_keys s ->
  written s' = written s ->
  sound s -> sound s'.
Proof.
  intros E1 E2 E3 E4 (Hp & Hk & Hw).
  unfold sound, paired, keys_known, wire_clean. rewrite E1, E2, E3, E4.
  auto.
Qed.

Lemma sound_ui (cs : list call) (s : t) :
  ui_only cs = true -> sound s -> sound (calls cs s).
Proof.
  intros H. apply sound_fields; try reflexivity. apply ui_only_written, H.
Qed.

Lemma sound_write (c : string) (s : t) :
  c ∈ alphabet -> sound s -> sound (calls [SerWrite c] s).
Proof.
  intros Hc (Hp & Hk & Hw). repeat split; [exact Hp|exact Hk|].
  unfold wire_clean. rewrite written_calls. apply Forall_app. split; [exact Hw|].
  simpl. constructor; [exact Hc|constructor].
Qed.

Lemma active_keys_disconnect_serial (s : t) :
  active_keys (disconnect_serial s) = active_keys s.
Proof. open_state s; reflexivity. Qed.

Lemma sound_disconnect_serial (s : t) :
  sound s -> sound (disconnect_serial s).
Proof.
  intros (Hp & Hk & Hw). repeat split.
  - intros [v Hv]. exfalso. revert Hv. open_state s; discriminate.
  - unfold keys_known. rewrite active_keys_disconnect_serial. exact Hk.
  - unfold wire_clean. rewrite written_disconnect_serial. exact Hw.
Qed.

Lemma sound_show_error (m : string) (s : t) :
  sound s -> sound (show_error m s).
Proof.
  intros H. unfold show_error. apply sound_disconnect_serial, sound_ui;
    [reflexivity|exact H].
Qed.

Lemma sound_gui_send (th : SerialThread.t) (c : string) (s : t) :
  c ∈ alphabet -> sound s -> sound (snd (gui_send th c s)).
Proof.
  intros Hc H. unfold gui_send.
  destruct (send_cases c th) as [E|[E|[m E]]]; rewrite E; simpl.
  - apply sound_write; assumption.
  - exact H.
  - apply sound_show_error, H.
Qed.

Lemma sound_worker_send (th : SerialThread.t) (c : string) (s : t) :
  c ∈ alphabet -> sound s -> sound (snd (worker_send th c s)).
Proof.
  intros Hc H. unfold worker_send.
  destruct (send_cases c th) as [E|[E|[m E]]]; rewrite E; simpl.
  - apply sound_write; assumption.
  - exact H.
  - revert H. apply sound_fields; reflexivity.
Qed.

(** A send that returns [True] wrote the command and did nothing else. *)
Lemma gui_send_true (th : SerialThread.t) (c : string) (s : t) :
  fst (gui_send th c s) = true ->
  snd (gui_send th c s) = calls [SerWrite c] s.
Proof.
  unfold gui_send.
  destruct (send_cases c th) as [E|[E|[m E]]]; rewrite E; simpl;
    [reflexivity|discriminate|discriminate].
Qed.

Lemma worker_send_true (th : SerialThread.t) (c : string) (s : t) :
  fst (worker_send th c s) = true ->
  snd (worker_send th c s) = calls [SerWrite c] s.
Proof.
  unfold worker_send.
  destruct (send_cases c th) as [E|[E|[m E]]]; rewrite E; simpl;
    [reflexivity|discriminate|discriminate].
Qed.

Create HintDb sound.

#[local] Hint Resolve sound_show_error sound_disconnect_serial
  sound_gui_send sound_worker_send sound_write : sound.

#[local] Hint Extern 2 (sound (calls _ _)) =>
  (apply sound_ui; [reflexivity|]) : sound.

#[local] Hint Extern 1 (_ ∈ alphabet) =>
  (unfold alphabet; rewrite !elem_of_cons; tauto) : sound.

Lemma sound_set_current_mode (m : string) (s : t) :
  sound s -> sound (set_current_mode m s).
Proof. apply sound_fields; reflexivity. Qed.

Lemma sound_set_listener (b : bool) (s : t) :
  sound s -> sound (set_listener b s).
Proof. apply sound_fields; reflexivity. Qed.

Lemma sound_set_last_cmd_time (q : Q) (s : t) :
  sound s -> sound (set_last_cmd_time q s).
Proof. apply sound_fields; reflexivity. Qed.

Lemma sound_set_queued (q : list string) (s : t) :
  sound s -> sound (set_queued q s).
Proof. apply sound_fields; reflexivity. Qed.

#[local] Hint Resolve sound_set_current_mode sound_set_listener
  sound_set_last_cmd_time sound_set_queued : sound.

Lemma sound_handle_serial_data (data : string) (s : t) :
  sound s -> sound (handle_serial_data data s).
Proof.
  intros H. unfold handle_serial_data, invalid_soil.
  repeat match goal with
         | |- context [if ?b then _ else _] => destruct b
         | |- context [match ?o with Some _ => _ | None => _ end] =>
             destruct o
         end; auto 6 with sound.
Qed.

Lemma sound_switch_mode_with (toggle : t -> t) (mode : string) (s : t) :
  (forall s', sound s' -> sound (toggle s')) ->
  mode ∈ alphabet ->
  sound s -> sound (switch_mode_with toggle mode s).
Proof.
  intros Ht Hm H. unfold switch_mode_with.
  destruct (serial_thread s) as [th|]; [|exact H].
  pose proof (sound_gui_send th mode s Hm H) as K.
  destruct (fst (gui_send th mode s)); [|exact K].
  repeat match goal with
         | |- context [if ?b then _ else _] => destruct b
         | |- context [match ?o with Some _ => _ | None => _ end] =>
             destruct o
         end; auto 6 with sound.
Qed.

Lemma sound_start_voice (s : t) : sound s -> sound (start_voice s).
Proof.
  intros H. unfold start_voice.
  destruct (serial_thread s) as [th|] eqn:Et; [|auto with sound].
  destruct (fst (gui_send th "V" s)) eqn:E; [|auto with sound].
  rewrite (gui_send_true th "V" s E).
  apply sound_ui; [reflexivity|].
  assert (K : sound (calls [SerWrite "V"] s)) by auto with sound.
  destruct K as (_ & Hk & Hw). repeat split; [|exact Hk|exact Hw].
  intros _. simpl. rewrite Et. eauto.
Qed.

Lemma sound_drop_voice (s : t) : sound s -> sound (set_voice_thread None s).
Proof.
  intros (_ & Hk & Hw). repeat split; [|exact Hk|exact Hw].
  intros [v Hv]. discriminate.
Qed.

Lemma sound_toggle_voice (s : t) : sound s -> sound (toggle_voice s).
Proof.
  intros H. unfold toggle_voice, toggle_voice_with.
  destruct (voice_thread s) as [[[]]|]; cbn [VoiceThread.isRunning];
    try (apply sound_start_voice, H).
  apply sound_ui; [reflexivity|].
  apply sound_switch_mode_with; [auto|auto with sound|].
  apply sound_ui; [reflexivity|]. apply sound_drop_voice, H.
Qed.

Lemma sound_switch_mode (mode : string) (s : t) :
  mode ∈ alphabet -> sound s -> sound (switch_mode mode s).
Proof.
  intros Hm. apply sound_switch_mode_with; [apply sound_toggle_voice|exact Hm].
Qed.

(** The command of the key path is S or one of the five key commands,
    whatever the held set holds. *)
Lemma first_held_known (keys : gset string) (ps : list string) (c : string) :
  first_held ps keys = Some c -> c ∈ ps.
Proof.
  induction ps as [|p ps IH]; simpl; [discriminate|].
  destruct (bool_decide (p ∈ keys)).
  - intros [= ->]. left.
  - intros H. right. apply IH, H.
Qed.

Lemma effective_command_known (keys : gset string) :
  effective_command keys ∈ ["S"; "F"; "B"; "L"; "R"; "P"].
Proof.
  unfold effective_command.
  destruct (first_held priority_cmds keys) as [c|] eqn:E; simpl.
  - right. apply (first_held_known keys), E.
  - left.
Qed.

Lemma effective_command_alphabet (keys : gset string) :
  effective_command keys ∈ alphabet.
Proof.
  pose proof (effective_command_known keys) as H.
  unfold alphabet. rewrite !elem_of_cons in *. tauto.
Qed.

Lemma key_cmd_known (key : Key) (cmd : string) :
  key_cmd key = Some cmd -> cmd = EmptyString \/ cmd ∈ priority_cmds.
Proof.
  unfold priority_cmds. rewrite !elem_of_cons.
  destruct key as [| | | | |n|[c|]]; simpl;
    repeat match goal with
           | |- context [if ?b then _ else _] => destruct b
           end; intros [= <-]; tauto.
Qed.

Lemma sound_send_key_command (s : t) : sound s -> sound (send_key_command s).
Proof.
  intros H. unfold send_key_command.
  destruct (serial_thread s) as [th|]; [|exact H].
  pose proof (sound_worker_send th _ s
                (effective_command_alphabet (active_keys s)) H) as K.
  destruct (fst (worker_send th _ s)); auto with sound.
Qed.

Lemma sound_on_press (key : Key) (s : t) : sound s -> sound (on_press key s).
Proof.
  intros H. unfold on_press.
  destruct (negb _ || negb _); [exact H|].
  destruct (key_cmd key) as [cmd|] eqn:Ek; [|exact H].
  destruct (String.eqb cmd EmptyString) eqn:En; [exact H|].
  apply sound_send_key_command.
  destruct H as (Hp & Hk & Hw). repeat split; [exact Hp| |exact Hw].
  intros c. cbn [active_keys set_active_keys].
  rewrite elem_of_union, elem_of_singleton. intros [->|Hc]; [|auto].
  destruct (key_cmd_known key cmd Ek) as [->|Hc]; [discriminate|exact Hc].
Qed.

Lemma sound_on_release (key : Key) (s : t) : sound s -> sound (on_release key s).
Proof.
  intros H. unfold on_release.
  destruct (negb _ || negb _); [exact H|].
  destruct (key_cmd key) as [cmd|]; [|exact H].
  destruct (bool_decide _); [|exact H].
  apply sound_send_key_command.
  destruct H as (Hp & Hk & Hw). repeat split; [exact Hp| |exact Hw].
  intros c. cbn [active_keys set_active_keys].
  rewrite elem_of_difference. intros [Hc _]. auto.
Qed.

Lemma sound_update_status (now now' : Q) (s : t) :
  sound s -> sound (update_status now now' s).
Proof.
  intros H. unfold update_status.
  destruct (serial_thread s) as [th|]; [|auto with sound].
  assert (K : sound (if polls (current_mode s)
                     then snd (gui_send th "D" s) else s))
    by (destruct (polls (current_mode s)); auto with sound).
  revert K. generalize (if polls (current_mode s)
                        then snd (gui_send th "D" s) else s).
  intros s1 K. destruct (stale now (last_cmd_time s1)); [|exact K].
  destruct (serial_thread s1) as [th'|]; auto with sound.
Qed.

Lemma command_of_known (text cmd : string) :
  VoiceThread.command_of text = Some cmd ->
  cmd ∈ ["F"; "B"; "L"; "R"; "P"; "S"].
Proof.
  unfold VoiceThread.command_of, VoiceThread.command_map. simpl.
  rewrite !elem_of_cons.
  repeat match goal with
         | |- context [if ?b then _ else _] => destruct b
         end; intros [= <-]; tauto.
Qed.

Lemma sound_voice_pass (h : VoiceThread.heard) (s : t) :
  sound s -> sound (voice_pass h s).
Proof.
  intros H. unfold voice_pass.
  destruct (voice_thread s) as [[[]]|] eqn:Ev; cbn [VoiceThread.isRunning];
    try exact H.
  destruct h as [text| | |e]; auto with sound.
  - destruct (VoiceThread.command_of text) as [cmd|] eqn:Ec; [|auto with sound].
    cbn [serial_thread calls].
    destruct (serial_thread s) as [th|]; [|auto with sound].
    assert (Hc : cmd ∈ alphabet).
    { pose proof (command_of_known text cmd Ec) as K.
      unfold alphabet. rewrite !elem_of_cons in *. tauto. }
    pose proof (sound_worker_send th cmd (calls [listening; processing] s) Hc)
      as K.
    destruct (fst (worker_send th cmd _)); auto with sound.
  - destruct H as (Hp & Hk & Hw). repeat split.
    + intros _. apply Hp. rewrite Ev. eauto.
    + exact Hk.
    + unfold wire_clean. written_norm. exact Hw.
Qed.

Lemma sound_run_queued (s : t) : sound s -> sound (run_queued s).
Proof.
  intros H. unfold run_queued. destruct (queued s); auto with sound.
Qed.

Lemma sound_new_thread (th : SerialThread.t) (s : t) :
  sound s -> sound (set_serial_thread (Some th) s).
Proof.
  intros (_ & Hk & Hw). repeat split; [|exact Hk|exact Hw].
  intros _. simpl. eauto.
Qed.

Lemma sound_connect_serial (alive : bool) (p : string) (s : t) :
  sound s -> sound (connect_serial alive p s).
Proof.
  intros H. unfold connect_serial.
  destruct (_ && alive); [auto with sound|].
  destruct (_ || _); [auto with sound|].
  apply sound_new_thread. auto with sound.
Qed.

Lemma sound_deliver_signal (sig : SerialThread.signal) (s : t) :
  sound s -> sound (deliver_signal s sig).
Proof.
  destruct sig; simpl; auto using sound_handle_serial_data with sound.
Qed.

Lemma sound_deliver_signals (sigs : list SerialThread.signal) :
  forall s, sound s -> sound (foldl deliver_signal s sigs).
Proof.
  induction sigs as [|sig sigs IH]; intros s H; [exact H|].
  simpl. apply IH, sound_deliver_signal, H.
Qed.

Lemma sound_step (e : event) (s : t) : sound s -> sound (step s e).
Proof.
  intros H. destruct e; simpl.
  - apply sound_connect_serial, H.
  - unfold serial_run_open. destruct (serial_thread s); [|exact H].
    apply sound_deliver_signals, sound_new_thread, H.
  - unfold check_connection_status, connection_confirmed.
    destruct (_ && _); [|auto with sound].
    apply sound_set_listener, sound_switch_mode; auto with sound.
  - apply sound_disconnect_serial, H.
  - unfold serial_read. destruct (serial_thread s); [|exact H].
    apply sound_deliver_signals, H.
  - apply sound_run_queued, H.
  - apply sound_switch_mode; auto with sound.
  - apply sound_toggle_voice, H.
  - apply sound_on_press, H.
  - apply sound_on_release, H.
  - apply sound_update_status, H.
  - apply sound_voice_pass, H.
  - unfold port_fault. destruct (serial_thread s); [|exact H].
    apply sound_new_thread, H.
Qed.

Lemma sound_init : sound init.
Proof.
  repeat split.
  - intros [v Hv]. discriminate.
  - intros c Hc. exfalso. revert Hc. apply not_elem_of_empty.
  - constructor.
Qed.

Lemma sound_after (es : list event) : sound (after es).
Proof.
  unfold after. generalize sound_init. generalize init.
  induction es as [|e es IH]; intros s H; [exact H|].
  simpl. apply IH, sound_step, H.
Qed.

(** X1: whatever sequence of clicks, key events, timer ticks, telemetry,
    voice results and port faults the window goes through from its
    start, a voice thread is never kept without a serial thread. *)
Theorem voice_thread_needs_serial_thread (es : list event) :
  is_Some (voice_thread (after es)) -> is_Some (serial_thread (after es)).
Proof. apply (sound_after es). Qed.

Lemma voice_thread_needs_serial_thread_witness :
  is_Some (serial_thread (after (connect_events ++ [VoiceClicked]))).
Proof.
  apply (voice_thread_needs_serial_thread (connect_events ++ [VoiceClicked])).
  vm_compute. eauto.
Defined.

(** X2: in every run of the window the set of held keys holds only the
    five key commands F, B, L, R, P. *)
Theorem held_keys_are_key_commands (es : list event) (c : string) :
  c ∈ active_keys (after es) -> c ∈ ["F"; "B"; "L"; "R"; "P"].
Proof. apply (sound_after es). Qed.

Lemma held_keys_are_key_commands_witness :
  "F" ∈ ["F"; "B"; "L"; "R"; "P"].
Proof.
  assert (E : active_keys (after (connect_events ++ [KeyPressed Key_up])) =
              {["F"]}) by (vm_compute; reflexivity).
  apply (held_keys_are_key_commands (connect_events ++ [KeyPressed Key_up])).
  rewrite E. apply elem_of_singleton. reflexivity.
Defined.

(** X3: in every run of the window (the mode buttons being the Auto
    button and the voice button) every command written to the port is
    one of the ten protocol characters F, B, L, R, P, S, D, N, V, A. *)
Theorem only_protocol_characters_written (es : list event) (c : string) :
  c ∈ written (after es) -> c ∈ alphabet.
Proof.
  intros Hc. destruct (sound_after es) as (_ & _ & Hw).
  unfold wire_clean in Hw. rewrite Forall_forall in Hw. apply Hw, Hc.
Qed.

Lemma only_protocol_characters_written_witness : "N" ∈ alphabet.
Proof.
  apply (only_protocol_characters_written connect_events).
  vm_compute. left.
Defined.

(** ** Listing the ports and connecting *)

(** X4: the port box is never left empty and lists only device names the
    system reported, or the placeholder.  When some port passes the
    filter the box holds exactly the passing devices, in order; when none
    does it holds all devices of the second listing; the placeholder
    appears only when that listing is empty too. *)
Theorem port_items_fallback (sys : string) (found again : list PortInfo) :
  port_items sys found again <> [] /\
  (forall d : string,
      d ∈ port_items sys found again ->
      d = no_ports_found \/
      exists p, (p ∈ found \/ p ∈ again) /\ device p = d) /\
  (List.filter (port_matches (Py.lower sys)) found <> [] ->
   port_items sys found again =
   map device (List.filter (port_matches (Py.lower sys)) found)) /\
  (List.filter (port_matches (Py.lower sys)) found = [] ->
   again <> [] ->
   port_items sys found again = map device again) /\
  (List.filter (port_matches (Py.lower sys)) found = [] ->
   again = [] ->
   port_items sys found again = [no_ports_found]).
Proof.
  unfold port_items.
  destruct (List.filter (port_matches (Py.lower sys)) found) as [|p ps] eqn:Ef;
    cbn [map].
  - destruct again as [|a again]; cbn [map].
    + repeat split; try congruence.
      intros d Hd. left. apply list_elem_of_singleton in Hd. exact Hd.
    + repeat split; try congruence.
      intros d Hd. right.
      change (device a :: map device again) with (device <$> (a :: again)) in Hd.
      apply list_elem_of_fmap in Hd. destruct Hd as (q & -> & Hq). eauto.
  - repeat split; try congruence.
    intros d Hd. right.
    change (device p :: map device ps) with (device <$> (p :: ps)) in Hd.
    apply list_elem_of_fmap in Hd. destruct Hd as (q & -> & Hq).
    exists q. split; [|reflexivity]. left.
    rewrite <- Ef in Hq. apply list_elem_of_In, filter_In in Hq as [Hq _].
    apply list_elem_of_In, Hq.
Qed.

Lemma port_items_fallback_witness :
  port_items "Linux" [{| device := "/dev/rfcomm0"; description := "n/a" |}]
    [{| device := "/dev/rfcomm0"; description := "n/a" |}] =
  ["/dev/rfcomm0"].
Proof.
  apply (port_items_fallback "Linux"
           [{| device := "/dev/rfcomm0"; description := "n/a" |}]
           [{| device := "/dev/rfcomm0"; description := "n/a" |}]).
  - reflexivity.
  - discriminate.
Defined.

Lemma teardown_fields (m : string) (s : t) :
  serial_thread (show_error m s) = None /\
  voice_thread (show_error m s) = None /\
  listener (show_error m s) = false /\
  written (show_error m s) = written s.
Proof.
  destruct (show_error_teardown m s) as (H1 & H2 & H3).
  repeat split; try assumption. apply written_show_error.
Qed.

Lemma connect_invalid_port (alive : bool) (p : string) (s : t) :
  p = EmptyString \/ Py.contains "No ports" p = true ->
  connect_serial alive p s = show_error (refusal alive s) s.
Proof.
  intros Hp. unfold connect_serial, refusal.
  assert (G : String.eqb p EmptyString || Py.contains "No ports" p = true).
  { destruct Hp as [E|E]; rewrite E; [reflexivity|apply orb_true_r]. }
  rewrite G. destruct (_ && alive); reflexivity.
Qed.

(** [disconnect_serial] only adds to the record of calls. *)
Lemma disconnect_serial_extends (s : t) :
  exists rest, trace (disconnect_serial s) = trace s ++ rest.
Proof.
  open_state s; rewrite <- ?app_assoc; eexists; reflexivity.
Qed.

Lemma show_error_calls (m : string) (s : t) :
  Append "log_text" ("ERROR: " +:+ m) ∈ trace (show_error m s) /\
  Critical m ∈ trace (show_error m s).
Proof.
  unfold show_error.
  destruct (disconnect_serial_extends
              (calls [Append "log_text" ("ERROR: " +:+ m); Critical m] s))
    as (rest & ->).
  cbn [trace calls].
  split; apply elem_of_app; left; apply elem_of_app; right.
  - left.
  - right. left.
Qed.

(** X5: [connect_serial] starts no thread on an empty port text or on a
    text with [No ports] in it: it is [show_error] on the refusal (no
    valid port, or already connected when a thread runs), so the error is
    logged and shown in a dialog, and the window is left disconnected
    with nothing written.  So when the listing found no port at all,
    whatever the port box then holds is refused in this way. *)
Theorem connect_rejects_placeholder (alive : bool) (s : t) :
  (forall p : string,
      p = EmptyString \/ Py.contains "No ports" p = true ->
      connect_serial alive p s = show_error (refusal alive s) s /\
      Critical (refusal alive s) ∈ trace (connect_serial alive p s) /\
      serial_thread (connect_serial alive p s) = None /\
      voice_thread (connect_serial alive p s) = None /\
      listener (connect_serial alive p s) = false /\
      written (connect_serial alive p s) = written s) /\
  (forall (sys : string) (found : list PortInfo) (p : string),
      List.filter (port_matches (Py.lower sys)) found = [] ->
      p ∈ port_items sys found [] ->
      connect_serial alive p s = show_error (refusal alive s) s /\
      Critical (refusal alive s) ∈ trace (connect_serial alive p s) /\
      serial_thread (connect_serial alive p s) = None /\
      written (connect_serial alive p s) = written s) /\
  (serial_thread s = None -> refusal alive s = no_valid_port).
Proof.
  assert (K : forall p : string,
             p = EmptyString \/ Py.contains "No ports" p = true ->
             connect_serial alive p s = show_error (refusal alive s) s /\
             Critical (refusal alive s) ∈ trace (connect_serial alive p s) /\
             serial_thread (connect_serial alive p s) = None /\
             voice_thread (connect_serial alive p s) = None /\
             listener (connect_serial alive p s) = false /\
             written (connect_serial alive p s) = written s).
  { intros p Hp. rewrite (connect_invalid_port alive p s Hp).
    split; [reflexivity|]. split; [apply show_error_calls|].
    apply teardown_fields. }
  split; [exact K|]. split.
  - intros sys found p Hf Hp. unfold port_items in Hp. rewrite Hf in Hp.
    cbn [map] in Hp. apply list_elem_of_singleton in Hp. subst p.
    destruct (K no_ports_found) as (H1 & H2 & H3 & _ & _ & H6);
      [right; reflexivity|].
    repeat split; assumption.
  - intros Ht. unfold refusal. rewrite Ht. reflexivity.
Qed.

Lemma connect_rejects_placeholder_witness :
  connect_serial false EmptyString init = show_error no_valid_port init /\
  Critical no_valid_port ∈ trace (connect_serial false no_ports_found init).
Proof.
  destruct (connect_rejects_placeholder false init) as (H1 & H2 & H3).
  split.
  - rewrite <- (H3 eq_refl). apply (H1 EmptyString). left. reflexivity.
  - rewrite <- (H3 eq_refl).
    apply (H2 "Linux" [] no_ports_found); [reflexivity|left].
Defined.

(** X6: a click on Connect while the serial thread runs does not keep
    the session: the error is shown and, as after every error, the window
    is disconnected (serial thread, voice thread and key listener
    dropped), whatever port is selected. *)
Theorem connect_while_running_disconnects
  (p : string) (th : SerialThread.t) (s : t) :
  serial_thread s = Some th ->
  connect_serial true p s = show_error already_connected s /\
  serial_thread (connect_serial true p s) = None /\
  voice_thread (connect_serial true p s) = None /\
  listener (connect_serial true p s) = false /\
  written (connect_serial true p s) = written s.
Proof.
  intros Ht. unfold connect_serial. rewrite Ht. cbn [bool_decide andb].
  assert (G : bool_decide (is_Some (Some th)) = true)
    by (apply bool_decide_eq_true; eauto).
  rewrite G. cbn [andb]. split; [reflexivity|]. apply teardown_fields.
Qed.

Lemma connect_while_running_disconnects_witness :
  serial_thread (connect_serial true "COM4" (connected "COM3")) = None.
Proof.
  apply (connect_while_running_disconnects "COM4" (SerialThread.opened "COM3")
           (connected "COM3")).
  reflexivity.
Defined.

Lemma label_text_app (widget initial : string) (cs cs' : list call) :
  label_text widget initial (cs ++ cs') =
  label_text widget (label_text widget initial cs) cs'.
Proof. unfold label_text. apply foldl_app. Qed.

(** The thread that [connect_serial] starts, once its [run] has opened
    the port and the connect notice was handled. *)
Lemma connect_then_open (alive : bool) (p : string) (s : t) :
  serial_thread s = None ->
  p <> EmptyString ->
  Py.contains "No ports" p = false ->
  serial_run_open SerialThread.Opens (connect_serial alive p s) =
  handle_serial_data "Connected to Arduino" (serial_started p s).
Proof.
  intros Ht Hp Hn. unfold connect_serial. rewrite Ht. cbn [bool_decide].
  apply String.eqb_neq in Hp. rewrite Hp, Hn.
  assert (G : bool_decide (is_Some (@None SerialThread.t)) = false).
  { apply bool_decide_eq_false. intros [x Hx]. discriminate. }
  rewrite G. reflexivity.
Qed.

(** X7: a connect that goes through.  From a disconnected window and a
    valid port text, after [connect_serial], the thread's opening of the
    port with its connect notice, and [check_connection_status] on the
    running thread, the session is up: the serial thread holds the open
    port, the key listener is installed, the mode is N, and N is the one
    command written. *)
Theorem connect_flow_reaches_normal_mode (alive : bool) (p : string) (s : t) :
  serial_thread s = None ->
  voice_thread s = None ->
  p <> EmptyString ->
  Py.contains "No ports" p = false ->
  let s' := check_connection_status true p
              (serial_run_open SerialThread.Opens (connect_serial alive p s)) in
  serial_thread s' = Some (SerialThread.opened p) /\
  voice_thread s' = None /\
  listener s' = true /\
  current_mode s' = "N" /\
  written s' = written s ++ ["N"].
Proof.
  intros Ht Hv Hp Hn. cbn zeta.
  rewrite (connect_then_open alive p s Ht Hp Hn).
  unfold check_connection_status.
  assert (E : handle_serial_data "Connected to Arduino" (serial_started p s) =
              calls [SetText "status_label" "Status: Connected";
                     Append "log_text" "Connected to Arduino"]
                    (serial_started p s)) by reflexivity.
  rewrite E.
  assert (G : bool_decide (is_Some (serial_thread
                (calls [SetText "status_label" "Status: Connected";
                        Append "log_text" "Connected to Arduino"]
                       (serial_started p s)))) = true).
  { apply bool_decide_eq_true. simpl. eauto. }
  rewrite G.
  assert (L : Py.contains "Connected"
                (status_text
                   (calls [SetText "status_label" "Status: Connected";
                           Append "log_text" "Connected to Arduino"]
                          (serial_started p s))) = true).
  { unfold status_text. cbn [trace calls].
    rewrite label_text_app. reflexivity. }
  rewrite L. cbn [andb].
  unfold connection_confirmed, switch_mode.
  rewrite (switch_mode_with_no_voice toggle_voice (fun s' => s') "N")
    by exact Hv.
  rewrite (switch_normal_inner (SerialThread.opened p))
    by (reflexivity || exact Hv).
  split; [reflexivity|]. split; [exact Hv|]. split; [reflexivity|].
  split; [reflexivity|].
  unfold serial_started. change written with (fun x => omap is_write (trace x)).
  cbn [trace set_listener calls set_current_mode set_serial_thread].
  rewrite !omap_app. cbn [omap list_omap is_write].
  rewrite !app_nil_r. reflexivity.
Qed.

Lemma connect_flow_reaches_normal_mode_witness :
  written (check_connection_status true "COM3"
             (serial_run_open SerialThread.Opens
                (connect_serial false "COM3" init))) =
  written init ++ ["N"].
Proof.
  apply (connect_flow_reaches_normal_mode false "COM3" init);
    try reflexivity.
  discriminate.
Defined.

(** X8: a connect that does not go through ends disconnected.  When the
    port cannot be opened the failure is shown and the thread dropped;
    and when the connection check runs before the connect notice was
    handled (the status label does not read Connected), or finds the
    thread not running, it shows the connection failure and drops the
    thread.  In all three cases no key listener is installed and nothing
    is written. *)
Theorem failed_connect_ends_disconnected
  (alive : bool) (p e : string) (s : t) :
  serial_thread s = None ->
  p <> EmptyString ->
  Py.contains "No ports" p = false ->
  (serial_run_open (SerialThread.OpenRaises e) (connect_serial alive p s) =
   show_error (SerialThread.open_error_text p e) (connect_serial alive p s)) /\
  (check_connection_status true p (connect_serial alive p s) =
   show_error connection_failed (connect_serial alive p s)) /\
  (forall s0 : t,
      check_connection_status false p s0 = show_error connection_failed s0) /\
  (forall m : string,
      serial_thread (show_error m (connect_serial alive p s)) = None /\
      listener (show_error m (connect_serial alive p s)) = false /\
      written (show_error m (connect_serial alive p s)) = written s).
Proof.
  intros Ht Hp Hn.
  assert (E : connect_serial alive p s =
              set_serial_thread (Some (SerialThread.init p))
                (calls [SetText "status_label" "Status: Connecting...";
                        Append "log_text" ("Connecting to " +:+ p)] s)).
  { unfold connect_serial. rewrite Ht.
    apply String.eqb_neq in Hp. rewrite Hp, Hn.
    assert (G : bool_decide (is_Some (@None SerialThread.t)) = false).
    { apply bool_decide_eq_false. intros [x Hx]. discriminate. }
    rewrite G. reflexivity. }
  rewrite E. split; [|split; [|split]].
  - reflexivity.
  - unfold check_connection_status.
    assert (L : Py.contains "Connected"
                  (status_text
                     (set_serial_thread (Some (SerialThread.init p))
                        (calls [SetText "status_label" "Status: Connecting...";
                                Append "log_text" ("Connecting to " +:+ p)] s)))
                = false).
    { unfold status_text. cbn [trace calls set_serial_thread].
      rewrite label_text_app. reflexivity. }
    rewrite L, andb_false_r. reflexivity.
  - intros s0. unfold check_connection_status.
    rewrite andb_false_r. reflexivity.
  - intros m. split; [apply show_error_teardown|]. split.
    + apply show_error_teardown.
    + rewrite written_show_error. unfold written.
      cbn [trace calls set_serial_thread]. rewrite omap_app. apply app_nil_r.
Qed.

Lemma failed_connect_ends_disconnected_witness :
  serial_run_open (SerialThread.OpenRaises "busy")
    (connect_serial false "COM3" init) =
  show_error (SerialThread.open_error_text "COM3" "busy")
    (connect_serial false "COM3" init).
Proof.
  apply (failed_connect_ends_disconnected false "COM3" "busy" init);
    try reflexivity.
  discriminate.
Defined.

(** ** The serial thread: closing and reading *)

(** X9: after [close] the reader loop stops without emitting anything,
    whatever is waiting on the port, and the port name is kept; once the
    port has closed, every [send] returns [False] with nothing written. *)
Theorem close_stops_reader_and_sends
  (closes : bool) (command : string) (r : SerialThread.reading)
  (th : SerialThread.t) :
  SerialThread.read_pass r (SerialThread.close closes th) = (false, []) /\
  SerialThread.port (SerialThread.close closes th) = SerialThread.port th /\
  SerialThread.send command (SerialThread.close true th) = (false, []).
Proof.
  repeat split.
  unfold SerialThread.send, SerialThread.close; simpl.
  destruct (SerialThread.ser th) as [[[] w]|]; reflexivity.
Qed.

Lemma append_cons (x : ascii) (a b : string) :
  String x a +:+ b = String x (a +:+ b).
Proof. reflexivity. Qed.

Lemma append_empty_l (b : string) : EmptyString +:+ b = b.
Proof. reflexivity. Qed.

Lemma append_assoc (a b c : string) : (a +:+ b) +:+ c = a +:+ (b +:+ c).
Proof.
  induction a as [|x a IH]; [reflexivity|].
  rewrite !append_cons. f_equal. exact IH.
Qed.

Lemma append_empty_r (a : string) : a +:+ EmptyString = a.
Proof.
  induction a as [|x a IH]; [reflexivity|].
  rewrite append_cons. f_equal. exact IH.
Qed.

Lemma rev_app_spec (a b : string) : String.rev_app a b = String.rev a +:+ b.
Proof.
  revert b. induction a as [|x a IH]; intros b; [reflexivity|].
  change (String.rev_app a (String x b) =
          String.rev_app a (String x EmptyString) +:+ b).
  rewrite (IH (String x b)), (IH (String x EmptyString)), append_assoc.
  reflexivity.
Qed.

Lemma rev_cons (x : ascii) (a : string) :
  String.rev (String x a) = String.rev a +:+ String x EmptyString.
Proof. unfold String.rev at 1. simpl. apply rev_app_spec. Qed.

Lemma rev_append (a b : string) :
  String.rev (a +:+ b) = String.rev b +:+ String.rev a.
Proof.
  induction a as [|x a IH].
  - rewrite append_empty_l. symmetry. apply append_empty_r.
  - rewrite append_cons, !rev_cons, IH. apply append_assoc.
Qed.

Lemma rev_involutive (a : string) : String.rev (String.rev a) = a.
Proof.
  induction a as [|x a IH]; [reflexivity|].
  rewrite rev_cons, rev_append, IH. reflexivity.
Qed.

Lemma lstrip_by_headed (sp : ascii -> bool) (s : string) :
  headed sp (Py.lstrip_by sp s).
Proof.
  induction s as [|c s IH]; simpl; [exact I|].
  destruct (sp c) eqn:E; [exact IH|exact E].
Qed.

Lemma lstrip_by_fixed (sp : ascii -> bool) (s : string) :
  headed sp s -> Py.lstrip_by sp s = s.
Proof. destruct s as [|c s]; simpl; [reflexivity|]. intros ->. reflexivity. Qed.

(** What [lstrip] removes is a prefix. *)
Lemma lstrip_by_suffix (sp : ascii -> bool) (s : string) :
  exists w, s = w +:+ Py.lstrip_by sp s.
Proof.
  induction s as [|c s IH]; simpl; [exists EmptyString; reflexivity|].
  destruct (sp c).
  - destruct IH as (w & Hw). exists (String c w).
    rewrite append_cons, <- Hw. reflexivity.
  - exists EmptyString. reflexivity.
Qed.

Lemma headed_prefix (sp : ascii -> bool) (a b : string) :
  headed sp (a +:+ b) -> a <> EmptyString -> headed sp a.
Proof. destruct a as [|c a]; [congruence|]. rewrite append_cons. auto. Qed.

(** [strip] leaves no white space at either end. *)
Lemma strip_by_trimmed (sp : ascii -> bool) (s : string) :
  headed sp (Py.strip_by sp s) /\ headed sp (String.rev (Py.strip_by sp s)).
Proof.
  unfold Py.strip_by.
  set (a := Py.lstrip_by sp s).
  set (b := Py.lstrip_by sp (String.rev a)).
  split.
  - destruct (lstrip_by_suffix sp (String.rev a)) as (w & Hw). fold b in Hw.
    assert (Ha : a = String.rev b +:+ String.rev w).
    { rewrite <- rev_append, <- Hw, rev_involutive. reflexivity. }
    destruct (String.rev b) as [|c rb] eqn:E; [exact I|].
    apply (headed_prefix sp _ (String.rev w)); [|discriminate].
    rewrite <- Ha. apply lstrip_by_headed.
  - rewrite rev_involutive. apply lstrip_by_headed.
Qed.

Lemma strip_by_idempotent (sp : ascii -> bool) (s : string) :
  Py.strip_by sp (Py.strip_by sp s) = Py.strip_by sp s.
Proof.
  destruct (strip_by_trimmed sp s) as (H1 & H2).
  unfold Py.strip_by at 1.
  rewrite (lstrip_by_fixed sp _ H1), (lstrip_by_fixed sp _ H2).
  apply rev_involutive.
Qed.

(** X10: the reader loop hands on only lines with something in them: a
    line that is empty or all white space emits nothing, and the data of
    an emitted line is the stripped text of a line read while the loop
    runs, not empty and with no white space at either end (stripping it
    again changes nothing). *)
Theorem reader_emits_stripped_lines
  (r : SerialThread.reading) (th : SerialThread.t) :
  (forall text : string,
      Py.strip text = EmptyString ->
      SerialThread.read_pass (SerialThread.Line text) th =
      (SerialThread.running th, [])) /\
  (forall data : string,
      SerialThread.DataReceived data ∈ snd (SerialThread.read_pass r th) ->
      data <> EmptyString /\
      Py.strip data = data /\
      SerialThread.running th = true /\
      exists text, r = SerialThread.Line text /\ data = Py.strip text).
Proof.
  split.
  - intros text H. unfold SerialThread.read_pass. rewrite H.
    destruct (SerialThread.running th); reflexivity.
  - intros data. unfold SerialThread.read_pass.
    destruct (SerialThread.running th); [|intros H; inversion H].
    destruct r as [|text|e|e]; cbn [snd].
    + intros H; inversion H.
    + destruct (String.eqb (Py.strip text) EmptyString) eqn:E;
        [intros H; inversion H|].
      intros H. apply list_elem_of_singleton in H. injection H as ->.
      apply String.eqb_neq in E.
      split; [exact E|]. split; [apply strip_by_idempotent|].
      split; [reflexivity|]. eauto.
    + intros H. apply list_elem_of_singleton in H. discriminate.
    + intros H. apply list_elem_of_singleton in H. discriminate.
Qed.

Lemma reader_emits_stripped_lines_witness :
  SerialThread.read_pass (SerialThread.Line "  ") (SerialThread.opened "COM3") =
  (true, []) /\
  Py.strip "Soil:512" = "Soil:512".
Proof.
  split.
  - apply (reader_emits_stripped_lines SerialThread.NothingWaiting
             (SerialThread.opened "COM3")).
    reflexivity.
  - apply (reader_emits_stripped_lines
             (SerialThread.Line (String.append "Soil:512" Py.NL))
             (SerialThread.opened "COM3")).
    left.
Defined.

(** ** Telemetry *)

Lemma show_error_side_fields (m : string) (s : t) :
  active_keys (show_error m s) = active_keys s /\
  queued (show_error m s) = queued s.
Proof. open_state s; split; reflexivity. Qed.

(** X11: telemetry is never written back and never touches the keys or
    the timer: for every line, [handle_serial_data] leaves the bytes
    written, the held keys, the failsafe time and the queued errors as
    they were.  A line without [Error] in it is never fatal, however
    malformed: the serial thread, the voice thread and the key listener
    stay, and the mode changes only on a line with [Mode:] in it. *)
Theorem telemetry_is_read_only (data : string) (s : t) :
  written (handle_serial_data data s) = written s /\
  active_keys (handle_serial_data data s) = active_keys s /\
  last_cmd_time (handle_serial_data data s) = last_cmd_time s /\
  queued (handle_serial_data data s) = queued s /\
  (Py.contains "Error" data = false ->
   serial_thread (handle_serial_data data s) = serial_thread s /\
   voice_thread (handle_serial_data data s) = voice_thread s /\
   listener (handle_serial_data data s) = listener s /\
   (Py.contains "Mode:" data = false ->
    current_mode (handle_serial_data data s) = current_mode s)).
Proof.
  split; [|split; [|split; [|split]]].
  - unfold handle_serial_data, invalid_soil.
    repeat match goal with
           | |- context [show_error ?m ?x] => rewrite (written_show_error m x)
           | |- context [if ?b then _ else _] => destruct b
           | |- context [match ?o with Some _ => _ | None => _ end] =>
               destruct o
           end; written_norm; reflexivity.
  - unfold handle_serial_data, invalid_soil.
    repeat match goal with
           | |- context [show_error ?m ?x] =>
               rewrite (proj1 (show_error_side_fields m x))
           | |- context [if ?b then _ else _] => destruct b
           | |- context [match ?o with Some _ => _ | None => _ end] =>
               destruct o
           end; reflexivity.
  - apply handle_serial_data_keeps_time.
  - unfold handle_serial_data, invalid_soil.
    repeat match goal with
           | |- context [show_error ?m ?x] =>
               rewrite (proj2 (show_error_side_fields m x))
           | |- context [if ?b then _ else _] => destruct b
           | |- context [match ?o with Some _ => _ | None => _ end] =>
               destruct o
           end; reflexivity.
  - intros He.
    destruct (Py.contains "Mode:" data) eqn:Hm.
    + destruct (handle_mode_line data s He Hm) as (f & _ & ->).
      repeat split. discriminate.
    + unfold handle_serial_data, invalid_soil. rewrite He, Hm.
      repeat match goal with
             | |- context [if ?b then _ else _] => destruct b
             | |- context [match ?o with Some _ => _ | None => _ end] =>
                 destruct o
             end; repeat split.
Qed.

Lemma telemetry_is_read_only_witness :
  serial_thread (handle_serial_data "Soil:wet" (connected "COM3")) =
  serial_thread (connected "COM3").
Proof.
  apply (telemetry_is_read_only "Soil:wet" (connected "COM3")). reflexivity.
Defined.

Lemma soil_lines_ok_sound (k : nat) :
  forall lo n : Z,
    soil_lines_ok k lo = true ->
    (lo <= n < lo + 2 ^ Z.of_nat k)%Z ->
    soil_line_ok n = true.
Proof.
  induction k as [|k IH]; intros lo n H Hr.
  - simpl in *. assert (n = lo) by lia. subst. exact H.
  - cbn [soil_lines_ok] in H. apply andb_true_iff in H as [H1 H2].
    rewrite Nat2Z.inj_succ, Z.pow_succ_r in Hr by lia.
    destruct (Z_lt_ge_dec n (lo + 2 ^ Z.of_nat k)) as [Hlt|Hge].
    + apply (IH lo n H1). lia.
    + apply (IH _ n H2). lia.
Qed.

(** X12: every reading of the 10-bit sensor is displayed.  For each n
    from 0 to 1023, the line [Soil:] followed by n in decimal sets the
    bar to n and shows and logs a percentage that lies between 0 and 100
    and is the truncated quotient 100 * (1023 - n) / 1023. *)
Theorem soil_readings_displayed (n : Z) (s : t) :
  (0 <= n <= 1023)%Z ->
  (0 <= truncated_percent n <= 100)%Z /\
  handle_serial_data ("Soil:" +:+ pretty n) s =
  calls [SetToolTip "soil_bar" (pretty (truncated_percent n) +:+ "% moisture");
         Append "log_text"
           ("Soil Moisture: " +:+ pretty n +:+
            " (" +:+ pretty (truncated_percent n) +:+ "%)")]
        (calls [SetValue "soil_bar" n] s).
Proof.
  intros Hr.
  assert (H : soil_line_ok n = true).
  { apply (soil_lines_ok_sound 10 0); [vm_compute; reflexivity|].
    change (2 ^ Z.of_nat 10)%Z with 1024%Z. lia. }
  unfold soil_line_ok in H. cbn zeta in H.
  repeat (apply andb_true_iff in H; destruct H as [H ?]).
  repeat match goal with
         | K : negb _ = true |- _ => apply negb_true_iff in K
         | K : bool_decide _ = true |- _ => apply bool_decide_eq_true in K
         end.
  destruct (moisture_percent n) as [pct|] eqn:Ep; [|discriminate].
  repeat match goal with
         | K : _ && _ = true |- _ => apply andb_true_iff in K; destruct K
         end.
  assert (pct = truncated_percent n) by (apply Z.eqb_eq; assumption).
  subst pct. split; [lia|].
  unfold handle_serial_data.
  repeat match goal with
         | K : _ = _ |- _ => rewrite K
         end.
  reflexivity.
Qed.

Lemma soil_readings_displayed_witness :
  (0 <= truncated_percent 1023 <= 100)%Z.
Proof. apply (soil_readings_displayed 1023 init). lia. Defined.

(** ** Keys *)

Lemma written_set_active_keys (v : gset string) (s : t) :
  written (set_active_keys v s) = written s.
Proof. reflexivity. Qed.

Lemma written_set_serial_thread (v : option SerialThread.t) (s : t) :
  written (set_serial_thread v s) = written s.
Proof. reflexivity. Qed.

Lemma written_set_listener (v : bool) (s : t) :
  written (set_listener v s) = written s.
Proof. reflexivity. Qed.

(** [written_norm], through the other setters too. *)
Ltac written_all :=
  repeat first [ rewrite written_set_active_keys
               | rewrite written_set_serial_thread
               | rewrite written_set_listener
               | progress written_norm ].

Lemma send_key_command_ready (th : SerialThread.t) (s : t) :
  serial_thread s = Some th ->
  SerialThread.ready th = true ->
  send_key_command s =
  calls [Append "normal_status" ("WASD: " +:+ effective_command (active_keys s))]
        (calls [SerWrite (effective_command (active_keys s))] s).
Proof.
  intros Ht Hr. unfold send_key_command.
  rewrite Ht, (worker_send_ready th _ s Hr). reflexivity.
Qed.

Lemma listens (th : SerialThread.t) (s : t) :
  current_mode s = "N" ->
  serial_thread s = Some th ->
  negb (String.eqb (current_mode s) "N")
  || negb (bool_decide (is_Some (serial_thread s))) = false.
Proof.
  intros -> ->. reflexivity.
Qed.

(** X13: press and release undo each other on the held set.  In Normal
    mode on a port that takes the writes, pressing a key that is not held
    and releasing it again leaves the held set as it was; the press sends
    the command the priority order gives with the key added, and the
    release sends what the keys still held give, S when none is held. *)
Theorem press_release_round_trip
  (key : Key) (cmd : string) (th : SerialThread.t) (s : t) :
  current_mode s = "N" ->
  serial_thread s = Some th ->
  SerialThread.ready th = true ->
  key_cmd key = Some cmd ->
  cmd <> EmptyString ->
  cmd ∉ active_keys s ->
  active_keys (on_release key (on_press key s)) = active_keys s /\
  written (on_release key (on_press key s)) =
  written s ++ [effective_command ({[cmd]} ∪ active_keys s);
                effective_command (active_keys s)].
Proof.
  intros Hm Ht Hr Hk Hne Hc.
  assert (P : on_press key s =
              calls [Append "normal_status"
                       ("WASD: " +:+ effective_command ({[cmd]} ∪ active_keys s))]
                (calls [SerWrite (effective_command ({[cmd]} ∪ active_keys s))]
                   (set_active_keys ({[cmd]} ∪ active_keys s) s))).
  { unfold on_press. rewrite (listens th s Hm Ht), Hk.
    apply String.eqb_neq in Hne. rewrite Hne.
    apply (send_key_command_ready th); [exact Ht|exact Hr]. }
  rewrite P. unfold on_release.
  rewrite (listens th); [|exact Hm|exact Ht]. rewrite Hk.
  cbn [active_keys calls set_active_keys].
  rewrite bool_decide_eq_true_2
    by (apply elem_of_union_l, elem_of_singleton; reflexivity).
  rewrite (send_key_command_ready th); [|exact Ht|exact Hr].
  cbn [active_keys calls set_active_keys].
  assert (E : ({[cmd]} ∪ active_keys s) ∖ {[cmd]} = active_keys s).
  { apply set_eq. intros x.
    rewrite elem_of_difference, elem_of_union, !elem_of_singleton.
    split; [tauto|]. intros Hx. split; [tauto|]. intros ->. auto. }
  rewrite E. split; [reflexivity|]. written_all. reflexivity.
Qed.

Lemma press_release_round_trip_witness :
  written (on_release Key_space (on_press Key_space (connected "COM3"))) =
  written (connected "COM3") ++
  [effective_command ({["P"]} ∪ active_keys (connected "COM3"));
   effective_command (active_keys (connected "COM3"))].
Proof.
  apply (press_release_round_trip Key_space "P" (SerialThread.opened "COM3")
           (connected "COM3")); try reflexivity.
  - discriminate.
  - apply not_elem_of_empty.
Defined.

(** X14: a key that is none of the arrows, W, A, S, D and space does
    nothing, pressed or released: a key object without a character (its
    [char] is [None], the lookup raises and the exception is swallowed)
    and a key that maps to no command leave the window as it was, when
    the held keys are key commands as in every run. *)
Theorem unmapped_keys_do_nothing (key : Key) (s : t) :
  keys_known s ->
  key_cmd key = None \/ key_cmd key = Some EmptyString ->
  on_press key s = s /\ on_release key s = s.
Proof.
  intros Hk Hc. unfold on_press, on_release.
  destruct (negb _ || negb _); [split; reflexivity|].
  destruct Hc as [->| ->]; [split; reflexivity|].
  split; [reflexivity|].
  rewrite bool_decide_eq_false_2; [reflexivity|].
  intros H. apply Hk in H. unfold priority_cmds in H.
  rewrite !elem_of_cons in H.
  destruct H as [H|[H|[H|[H|[H|H]]]]]; try discriminate.
  inversion H.
Qed.

Lemma unmapped_keys_do_nothing_witness :
  on_press (KeyCode None) (connected "COM3") = connected "COM3" /\
  on_release (KeyCode (Some "q")) (connected "COM3") = connected "COM3".
Proof.
  assert (E : active_keys (connected "COM3") = ∅) by (vm_compute; reflexivity).
  assert (K : keys_known (connected "COM3")).
  { intros c. rewrite E. intros Hc. exfalso. revert Hc. apply not_elem_of_empty. }
  split.
  - apply (proj1 (unmapped_keys_do_nothing (KeyCode None) (connected "COM3")
                    K (or_introl eq_refl))).
  - apply (proj2 (unmapped_keys_do_nothing (KeyCode (Some "q"))
                    (connected "COM3") K (or_intror eq_refl))).
Defined.

(** ** Voice commands *)

Lemma first_match_first (text : string) (m : list (string * string)) :
  forall (i : nat) (key value : string),
    m !! i = Some (key, value) ->
    Py.contains key text = true ->
    (forall (j : nat) (key' value' : string),
        (j < i)%nat -> m !! j = Some (key', value') ->
        Py.contains key' text = false) ->
    VoiceThread.first_match m text = Some value.
Proof.
  induction m as [|[k v] m IH]; intros i key value Hi Hc Hmin; [discriminate|].
  simpl. destruct i as [|i].
  - injection Hi as -> ->. rewrite Hc. reflexivity.
  - rewrite (Hmin 0%nat k v); [|lia|reflexivity].
    apply (IH i key value Hi Hc).
    intros j key' value' Hj. apply (Hmin (S j)). lia.
Qed.

(** X15: the voice command is chosen by the order of the word list
    (forward, backward, back, left, right, spray, stop), not by the order
    of the words in the transcript, and words are found as substrings.  A
    transcript with [forward] anywhere in it is F whatever else it says;
    S is sent only when [stop] occurs and no other command word does; and
    a transcript with none of the words gives no command. *)
Theorem voice_command_by_list_order (text : string) :
  (forall (i : nat) (key value : string),
      VoiceThread.command_map !! i = Some (key, value) ->
      Py.contains key text = true ->
      (forall (j : nat) (key' value' : string),
          (j < i)%nat -> VoiceThread.command_map !! j = Some (key', value') ->
          Py.contains key' text = false) ->
      VoiceThread.command_of text = Some value) /\
  (Py.contains "forward" text = true ->
   VoiceThread.command_of text = Some "F") /\
  (VoiceThread.command_of text = Some "S" ->
   Py.contains "stop" text = true /\
   Forall (fun key => Py.contains key text = false)
          ["forward"; "backward"; "back"; "left"; "right"; "spray"]) /\
  (VoiceThread.command_of text = None <->
   Forall (fun key => Py.contains key text = false)
          ["forward"; "backward"; "back"; "left"; "right"; "spray"; "stop"]).
Proof.
  split; [|split; [|split]].
  - intros i key value. apply first_match_first.
  - intros H. unfold VoiceThread.command_of. simpl. rewrite H. reflexivity.
  - unfold VoiceThread.command_of. simpl.
    repeat match goal with
           | |- context [if ?b then _ else _] => destruct b eqn:?
           end; intros [=]; split; [reflexivity|].
    repeat constructor; assumption.
  - unfold VoiceThread.command_of. simpl.
    repeat match goal with
           | |- context [if ?b then _ else _] => destruct b eqn:?
           end; split; intros H;
      try discriminate; try reflexivity; try (repeat constructor);
      repeat match goal with
             | K : Forall _ (_ :: _) |- _ => inversion K; clear K; subst
             end; congruence.
Qed.

Lemma voice_command_by_list_order_witness :
  VoiceThread.command_of "stop going forward" = Some "F".
Proof. apply (voice_command_by_list_order "stop going forward"). reflexivity. Defined.

(** ** Errors *)

Lemma send_faulty (e command : string) (th : SerialThread.t) :
  faulty e th ->
  SerialThread.send command th =
  (false, [SerialThread.ErrorOccurred (SerialThread.write_error_text e)]).
Proof.
  intros (p & Hp & Ho & He). unfold SerialThread.send.
  rewrite Hp, Ho, He. reflexivity.
Qed.

(** X16: a failure of the speech service ends the session.  The voice
    pass that gets a request error stops the voice thread and queues the
    error without touching the serial thread, making only its two status
    calls; once the GUI thread runs
    the queued error, it is [show_error] on that error, so the error is
    logged and shown in a dialog, and the window is disconnected: serial
    thread, voice thread and key listener are dropped.  Nothing is
    written on the way. *)
Theorem speech_failure_ends_session (e : string) (s : t) :
  voice_thread s = Some {| VoiceThread.isRunning := true |} ->
  queued s = [] ->
  let s1 := voice_pass (VoiceThread.RequestError e) s in
  voice_thread s1 = Some {| VoiceThread.isRunning := false |} /\
  serial_thread s1 = serial_thread s /\
  queued s1 = [speech_error_text e] /\
  trace s1 = trace s ++ [listening; processing] /\
  run_queued s1 = show_error (speech_error_text e) (set_queued [] s1) /\
  Append "log_text" ("ERROR: " +:+ speech_error_text e)
    ∈ trace (run_queued s1) /\
  Critical (speech_error_text e) ∈ trace (run_queued s1) /\
  serial_thread (run_queued s1) = None /\
  voice_thread (run_queued s1) = None /\
  listener (run_queued s1) = false /\
  queued (run_queued s1) = [] /\
  written (run_queued s1) = written s.
Proof.
  intros Hv Hq. cbn zeta.
  assert (E : voice_pass (VoiceThread.RequestError e) s =
              set_voice_thread (Some {| VoiceThread.isRunning := false |})
                (set_queued [speech_error_text e]
                   (calls [listening; processing] s))).
  { unfold voice_pass. rewrite Hv. cbn [VoiceThread.isRunning].
    cbn [queued calls]. rewrite Hq. reflexivity. }
  rewrite E.
  split; [reflexivity|]. split; [reflexivity|]. split; [reflexivity|].
  split; [reflexivity|].
  assert (R : run_queued
                (set_voice_thread (Some {| VoiceThread.isRunning := false |})
                   (set_queued [speech_error_text e]
                      (calls [listening; processing] s))) =
              show_error (speech_error_text e)
                (set_queued []
                   (set_voice_thread
                      (Some {| VoiceThread.isRunning := false |})
                      (set_queued [speech_error_text e]
                         (calls [listening; processing] s)))))
    by reflexivity.
  rewrite R.
  split; [reflexivity|].
  split; [apply show_error_calls|]. split; [apply show_error_calls|].
  split; [apply show_error_teardown|]. split; [apply show_error_teardown|].
  split; [apply show_error_teardown|].
  split; [rewrite (proj2 (show_error_side_fields _ _)); reflexivity|].
  rewrite written_show_error. written_norm. reflexivity.
Qed.

Lemma speech_failure_ends_session_witness :
  Critical (speech_error_text "offline")
    ∈ trace (run_queued (voice_pass (VoiceThread.RequestError "offline")
                           (toggle_voice (connected "COM3")))).
Proof.
  apply (speech_failure_ends_session "offline"
           (toggle_voice (connected "COM3"))); reflexivity.
Defined.

Lemma gui_send_faulty (e command : string) (th : SerialThread.t) (s : t) :
  faulty e th ->
  gui_send th command s = (false, show_error (SerialThread.write_error_text e) s).
Proof.
  intros H. unfold gui_send. rewrite (send_faulty e command th H). reflexivity.
Qed.

(** X17: a write error on a timer tick ends the session, and a stale tick
    then reports twice.  On a port whose write raises, the distance poll
    of a tick shows the write error and disconnects; when the failsafe is
    due as well, the tick goes on to send S on the serial thread it has
    just dropped, and that failure is shown as a second error; the tick
    then returns without storing the failsafe time.  Nothing is written. *)
Theorem tick_on_faulty_port_tears_down
  (now now' : Q) (e : string) (th : SerialThread.t) (s : t) :
  serial_thread s = Some th ->
  faulty e th ->
  polls (current_mode s) = true ->
  update_status now now' s =
  (if stale now (last_cmd_time s)
   then show_error ("Status update failed: " +:+ none_has_no_send +:+ restart)
          (show_error (SerialThread.write_error_text e) s)
   else show_error (SerialThread.write_error_text e) s) /\
  serial_thread (update_status now now' s) = None /\
  last_cmd_time (update_status now now' s) = last_cmd_time s /\
  written (update_status now now' s) = written s.
Proof.
  intros Ht Hf Hp.
  assert (E : update_status now now' s =
              if stale now (last_cmd_time s)
              then show_error ("Status update failed: " +:+ none_has_no_send
                               +:+ restart)
                     (show_error (SerialThread.write_error_text e) s)
              else show_error (SerialThread.write_error_text e) s).
  { unfold update_status. rewrite Ht, Hp, (gui_send_faulty e "D" th s Hf).
    cbn [snd]. rewrite (proj2 (show_error_keeps _ s)).
    destruct (stale now (last_cmd_time s)); [|reflexivity].
    rewrite (proj1 (show_error_teardown _ s)). reflexivity. }
  rewrite E. split; [reflexivity|].
  destruct (stale now (last_cmd_time s)).
  - split; [apply show_error_teardown|].
    rewrite !(proj2 (show_error_keeps _ _)), !written_show_error.
    split; reflexivity.
  - split; [apply show_error_teardown|].
    rewrite !(proj2 (show_error_keeps _ _)), !written_show_error.
    split; reflexivity.
Qed.

Lemma tick_on_faulty_port_tears_down_witness :
  serial_thread
    (update_status 100 100 (port_fault "device gone" (connected "COM3"))) = None.
Proof.
  apply (tick_on_faulty_port_tears_down 100 100 "device gone"
           {| SerialThread.ser :=
                Some {| SerialThread.is_open := true;
                        SerialThread.write_raises := Some "device gone" |};
              SerialThread.port := "COM3"; SerialThread.running := true |}
           (port_fault "device gone" (connected "COM3"))).
  - reflexivity.
  - eexists. repeat split.
  - reflexivity.
Defined.

(** X18: a write error on a key press is not shown at once.  In Normal
    mode on a port whose write raises, a press of a mapped key records
    the key as held, writes nothing, shows nothing and keeps the session;
    the error waits in the queue of the GUI thread, and when that runs it
    the window is disconnected with the key still held. *)
Theorem key_write_error_is_deferred
  (key : Key) (cmd e : string) (th : SerialThread.t) (s : t) :
  current_mode s = "N" ->
  serial_thread s = Some th ->
  faulty e th ->
  key_cmd key = Some cmd ->
  cmd <> EmptyString ->
  queued s = [] ->
  on_press key s =
  set_queued [SerialThread.write_error_text e]
    (set_active_keys ({[cmd]} ∪ active_keys s) s) /\
  serial_thread (on_press key s) = Some th /\
  trace (on_press key s) = trace s /\
  serial_thread (run_queued (on_press key s)) = None /\
  active_keys (run_queued (on_press key s)) = {[cmd]} ∪ active_keys s /\
  written (run_queued (on_press key s)) = written s.
Proof.
  intros Hm Ht Hf Hk Hne Hq.
  assert (E : on_press key s =
              set_queued [SerialThread.write_error_text e]
                (set_active_keys ({[cmd]} ∪ active_keys s) s)).
  { unfold on_press. rewrite (listens th s Hm Ht), Hk.
    apply String.eqb_neq in Hne. rewrite Hne.
    unfold send_key_command, worker_send.
    cbn [serial_thread set_active_keys active_keys]. rewrite Ht.
    rewrite (send_faulty e _ th Hf). cbn [fst snd foldl deliver_queued].
    cbn [queued set_active_keys]. rewrite Hq. reflexivity. }
  rewrite E. split; [reflexivity|]. split; [exact Ht|].
  split; [reflexivity|].
  unfold run_queued. cbn [queued set_queued].
  split; [apply show_error_teardown|].
  split.
  - rewrite (proj1 (show_error_side_fields _ _)). reflexivity.
  - rewrite written_show_error. reflexivity.
Qed.

Lemma key_write_error_is_deferred_witness :
  serial_thread
    (run_queued (on_press Key_up (port_fault "device gone" (connected "COM3"))))
  = None.
Proof.
  apply (key_write_error_is_deferred Key_up "F" "device gone"
           {| SerialThread.ser :=
                Some {| SerialThread.is_open := true;
                        SerialThread.write_raises := Some "device gone" |};
              SerialThread.port := "COM3"; SerialThread.running := true |}
           (port_fault "device gone" (connected "COM3")));
    try reflexivity.
  - eexists. repeat split.
  - discriminate.
Defined.

(** ** Voice control and disconnecting *)

Lemma start_voice_ready (th : SerialThread.t) (s : t) :
  serial_thread s = Some th ->
  SerialThread.ready th = true ->
  start_voice s =
  calls [SetText "voice_btn" "Stop Voice Control";
         Append "voice_status" "Voice control started"]
        (set_voice_thread (Some {| VoiceThread.isRunning := true |})
           (calls [SerWrite "V"] s)).
Proof.
  intros Ht Hr. unfold start_voice.
  rewrite Ht, (gui_send_ready th "V" s Hr). reflexivity.
Qed.

Lemma stop_voice_ready (th : SerialThread.t) (s : t) :
  serial_thread s = Some th ->
  SerialThread.ready th = true ->
  voice_thread s = Some {| VoiceThread.isRunning := true |} ->
  toggle_voice s =
  calls [Append "voice_status" "Voice control stopped"]
    (calls [SerWrite "N"; SetText "mode_label" "N";
            Append "normal_status" "Normal Mode activated"]
       (set_current_mode "N"
          (calls [SetText "voice_btn" "Start Voice Control";
                  SetText "voice_status_label" "Status: Not active"]
             (set_voice_thread None s)))).
Proof.
  intros Ht Hr Hv. unfold toggle_voice, toggle_voice_with. rewrite Hv.
  cbn [VoiceThread.isRunning].
  rewrite (switch_normal_inner th); [reflexivity|exact Ht|exact Hr|reflexivity].
Qed.

(** X19: the voice button switches voice control on and off.  On a port
    that takes the writes and with no voice thread, the first click sends
    V and starts a voice thread but leaves [current_mode] as it is; the
    second click stops the thread, sends N and sets the mode to N.  After
    both, no voice thread is left and V, N is what was written. *)
Theorem voice_button_round_trip (th : SerialThread.t) (s : t) :
  serial_thread s = Some th ->
  SerialThread.ready th = true ->
  voice_thread s = None ->
  voice_thread (toggle_voice s) = Some {| VoiceThread.isRunning := true |} /\
  current_mode (toggle_voice s) = current_mode s /\
  written (toggle_voice s) = written s ++ ["V"] /\
  voice_thread (toggle_voice (toggle_voice s)) = None /\
  current_mode (toggle_voice (toggle_voice s)) = "N" /\
  serial_thread (toggle_voice (toggle_voice s)) = Some th /\
  written (toggle_voice (toggle_voice s)) = written s ++ ["V"; "N"].
Proof.
  intros Ht Hr Hv.
  assert (E : toggle_voice s = start_voice s).
  { unfold toggle_voice, toggle_voice_with. rewrite Hv. reflexivity. }
  rewrite E, (start_voice_ready th s Ht Hr).
  split; [reflexivity|]. split; [reflexivity|].
  split; [written_norm; reflexivity|].
  rewrite (stop_voice_ready th); [|exact Ht|exact Hr|reflexivity].
  split; [reflexivity|]. split; [reflexivity|]. split; [exact Ht|].
  written_norm. reflexivity.
Qed.

Lemma voice_button_round_trip_witness :
  written (toggle_voice (toggle_voice (connected "COM3"))) =
  written (connected "COM3") ++ ["V"; "N"].
Proof.
  apply (voice_button_round_trip (SerialThread.opened "COM3")
           (connected "COM3")); reflexivity.
Defined.

(** X20: only the switch to Normal mode stops voice control.  With a
    running voice thread on a port that takes the writes,
    [switch_mode('N')] drops the voice thread, and it sends N twice (once
    itself and once through [toggle_voice]); [switch_mode('A')] sets the
    mode to A, sends A once and leaves the voice thread running. *)
Theorem only_normal_mode_stops_voice (th : SerialThread.t) (s : t) :
  serial_thread s = Some th ->
  SerialThread.ready th = true ->
  voice_thread s = Some {| VoiceThread.isRunning := true |} ->
  voice_thread (switch_mode "N" s) = None /\
  current_mode (switch_mode "N" s) = "N" /\
  written (switch_mode "N" s) = written s ++ ["N"; "N"] /\
  voice_thread (switch_mode "A" s) =
  Some {| VoiceThread.isRunning := true |} /\
  current_mode (switch_mode "A" s) = "A" /\
  written (switch_mode "A" s) = written s ++ ["A"].
Proof.
  intros Ht Hr Hv.
  assert (EN : switch_mode "N" s =
               toggle_voice
                 (calls [Append "normal_status" "Normal Mode activated"]
                    (calls [SetText "mode_label" "N"]
                       (set_current_mode "N" (calls [SerWrite "N"] s))))).
  { unfold switch_mode, switch_mode_with.
    rewrite Ht, (gui_send_ready th "N" s Hr). cbn [fst snd].
    cbn [voice_thread calls set_current_mode]. rewrite Hv. reflexivity. }
  assert (EA : switch_mode "A" s =
               calls [SetText "auto_status" "Scanning for flames...";
                      Append "normal_status" "Auto Mode activated"]
                 (calls [SetText "mode_label" "A"]
                    (set_current_mode "A" (calls [SerWrite "A"] s)))).
  { unfold switch_mode, switch_mode_with.
    rewrite Ht, (gui_send_ready th "A" s Hr). reflexivity. }
  rewrite EN, EA.
  rewrite (stop_voice_ready th); [|exact Ht|exact Hr|exact Hv].
  split; [reflexivity|]. split; [reflexivity|].
  split; [written_norm; reflexivity|].
  split; [exact Hv|]. split; [reflexivity|]. written_norm. reflexivity.
Qed.

Lemma only_normal_mode_stops_voice_witness :
  voice_thread (switch_mode "N" (toggle_voice (connected "COM3"))) = None /\
  voice_thread (switch_mode "A" (toggle_voice (connected "COM3"))) =
  Some {| VoiceThread.isRunning := true |}.
Proof.
  destruct (only_normal_mode_stops_voice (SerialThread.opened "COM3")
              (toggle_voice (connected "COM3")) eq_refl eq_refl eq_refl)
    as (H1 & _ & _ & H4 & _).
  split; assumption.
Defined.

(** X21: disconnecting drops the serial thread, the voice thread and the
    key listener, writes nothing, and does not reset the rest: the mode
    variable, the held keys, the failsafe time and the queued errors are
    as before (the mode label reads None, the mode variable keeps its
    value).  A second disconnect only repeats the widget calls. *)
Theorem disconnect_keeps_mode_and_keys (s : t) :
  serial_thread (disconnect_serial s) = None /\
  voice_thread (disconnect_serial s) = None /\
  listener (disconnect_serial s) = false /\
  written (disconnect_serial s) = written s /\
  current_mode (disconnect_serial s) = current_mode s /\
  active_keys (disconnect_serial s) = active_keys s /\
  last_cmd_time (disconnect_serial s) = last_cmd_time s /\
  queued (disconnect_serial s) = queued s /\
  label_text "mode_label" "Disconnected" (trace (disconnect_serial s)) = "None" /\
  disconnect_serial (disconnect_serial s) =
  calls disconnect_calls (disconnect_serial s).
Proof.
  split; [open_state s; reflexivity|].
  split; [open_state s; reflexivity|].
  split; [open_state s; reflexivity|].
  split; [apply written_disconnect_serial|].
  split; [open_state s; reflexivity|].
  split; [apply active_keys_disconnect_serial|].
  split; [open_state s; reflexivity|].
  split; [open_state s; reflexivity|].
  split.
  - open_state s; rewrite ?label_text_app; reflexivity.
  - open_state s; reflexivity.
Qed.
